(** * Trade replication and execution engine: order sizing, retry loops,
      aggregation buffer and risk gate.

    The development embeds the TypeScript sources [postOrder] and
    [tradeExecutor] shallowly.  A JavaScript [number] is an IEEE-754
    binary64 value, so it is modelled by Rocq's primitive [float], whose
    operations are exactly the binary64 ones (round to nearest, ties to
    even).  The few [Math] and [Number] built-ins the sources use are
    defined on top of the decoding [Prim2SF] of a float into sign, mantissa
    and exponent. *)

From Stdlib Require Import ZArith Floats String Ascii List Bool Lia.
From stdpp Require Import gmap strings.

Set Warnings "-inexact-float".
Local Open Scope Z_scope.

(** ** JavaScript numbers *)

Module JS.

(** [ToBoolean] of a number: [0], [-0] and [NaN] are falsy. *)
Definition truthy (x : float) : bool := negb (is_nan x || is_zero x).

(** [x || y] on numbers. *)
Definition or_else (x y : float) : float := if truthy x then x else y.

(** The comparison operators [<], [>], [<=], [>=] and [===]. *)
Definition lt (a b : float) : bool := (a <? b)%float.
Definition gt (a b : float) : bool := (b <? a)%float.
Definition le (a b : float) : bool := (a <=? b)%float.
Definition ge (a b : float) : bool := (b <=? a)%float.
Definition strict_eq (a b : float) : bool := (a =? b)%float.

(** The double nearest to an integer (exact below [2^53]). *)
Definition of_Z (z : Z) : float := SF2Prim (binary_normalize prec emax z 0 false).

(** The double nearest to the decimal [n / 10^d], for [0 <= n]: what
    [parseFloat] returns on the decimal string with digits [n] and [d]
    fractional digits. *)
Definition decimal (n d : Z) : float :=
  match n with
  | Zpos p => SF2Prim (SFdiv prec emax (S754_finite false p 0)
                                       (S754_finite false (Z.to_pos (10 ^ d)) 0))
  | _ => PrimFloat.zero
  end.

(** A finite non-zero double is [M * 2^e] for the signed mantissa [M]. *)
Definition signed (s : bool) (m : positive) : Z := if s then Zneg m else Zpos m.

(** [Math.floor]. *)
Definition Math_floor (x : float) : float :=
  match Prim2SF x with
  | S754_finite s m e =>
      if 0 <=? e then x else of_Z (Z.shiftr (signed s m) (- e))
  | _ => x
  end.

(** [Math.round]: the nearest integer, ties towards [+Infinity]; a result
    of zero keeps the sign of the argument. *)
Definition Math_round (x : float) : float :=
  match Prim2SF x with
  | S754_finite s m e =>
      if 0 <=? e then x
      else
        let z := Z.shiftr (2 * signed s m + 2 ^ (- e)) (- e + 1) in
        if z =? 0 then (if s then PrimFloat.neg_zero else PrimFloat.zero) else of_Z z
  | _ => x
  end.

(** [Math.abs], [Math.max] and [Math.min] of two arguments. *)
Definition Math_abs (x : float) : float := PrimFloat.abs x.

Definition Math_max (a b : float) : float :=
  if is_nan a || is_nan b then PrimFloat.nan
  else if (a <? b)%float then b
  else if (b <? a)%float then a
  else if get_sign a then b else a.

Definition Math_min (a b : float) : float :=
  if is_nan a || is_nan b then PrimFloat.nan
  else if (a <? b)%float then a
  else if (b <? a)%float then b
  else if get_sign a then a else b.

(** [Math.pow(10, d)] for the small non-negative [d] the sources use. *)
Definition Math_pow10 (d : Z) : float := of_Z (10 ^ d).

(** The digits [Number.prototype.toFixed(d)] prints for a finite [x] below
    [1e21] in magnitude: the sign and the integer [n] with [n / 10^d]
    closest to [|x|], the larger one on a tie. *)
Definition toFixed_digits (x : float) (d : Z) : option (bool * Z) :=
  match Prim2SF x with
  | S754_zero _ => Some (false, 0)
  | S754_finite s m e =>
      let num := Zpos m * 10 ^ d in
      Some (s, if 0 <=? e then num * 2 ^ e
               else Z.shiftr (2 * num + 2 ^ (- e)) (- e + 1))
  | _ => None
  end.

(** [parseFloat(x.toFixed(d))].  From [1e21] on, [toFixed] prints the
    shortest round-tripping form, and so do [NaN] and the infinities:
    parsing returns [x]. *)
Definition parseFloat_toFixed (x : float) (d : Z) : float :=
  if (1e21 <=? PrimFloat.abs x)%float then x
  else match toFixed_digits x d with
       | Some (s, n) => if s then (- decimal n d)%float else decimal n d
       | None => x
       end.

End JS.

(** ** postOrder: rounding helpers *)

Definition MIN_ORDER_SIZE_USD : float := 0.10%float.
Definition MIN_ORDER_SIZE_TOKENS : float := 0.10%float.

Definition roundToDecimals (value : float) (decimals : Z) : float :=
  let factor := JS.Math_pow10 decimals in
  let rounded := (JS.Math_floor (value * factor) / factor)%float in
  JS.parseFloat_toFixed rounded decimals.

Definition roundAmount (amount : float) : float := roundToDecimals amount 2.
Definition roundTokens (tokens : float) : float := roundToDecimals tokens 4.
Definition roundPrice (price : float) : float := roundToDecimals price 2.

(** ** postOrder: classification of order responses *)

Definition lower_ascii (c : ascii) : ascii :=
  let n := nat_of_ascii c in
  if ((65 <=? n) && (n <=? 90))%nat then ascii_of_nat (n + 32) else c.

(** [String.prototype.toLowerCase], on the ASCII letters exchange messages
    are written in. *)
Fixpoint toLowerCase (s : string) : string :=
  match s with
  | EmptyString => EmptyString
  | String c r => String (lower_ascii c) (toLowerCase r)
  end.

(** [String.prototype.includes]. *)
Fixpoint includes (s needle : string) : bool :=
  String.prefix needle s
  || match s with
     | EmptyString => false
     | String _ r => includes r needle
     end.

(** What [postOrder] of the exchange client resolves to, as far as
    [extractOrderError] and the test [resp.success === true] look at it. *)
Inductive ErrorField :=
| ErrAbsent
| ErrString (s : string)
| ErrObject (nested_error nested_message : option string).

Record ResponseObject := {
  success : bool;              (* whether [success] is the boolean [true] *)
  error : ErrorField;
  errorMsg : option string;
  message : option string
}.

Inductive Response :=
| RespString (s : string)
| RespObject (data : ResponseObject).

(** [resp.success === true]: a string has no such property. *)
Definition success_is_true (resp : Response) : bool :=
  match resp with
  | RespString _ => false
  | RespObject data => success data
  end.

Definition extractOrderError (response : Response) : option string :=
  match response with
  | RespString s => if String.eqb s EmptyString then None else Some s
  | RespObject data =>
      match error data with
      | ErrString directError => Some directError
      | ErrObject (Some e) _ => Some e
      | ErrObject None (Some m) => Some m
      | _ =>
          match errorMsg data with
          | Some e => Some e
          | None => message data
          end
      end
  end.

Definition isInsufficientBalanceOrAllowanceError (message : option string) : bool :=
  match message with
  | None => false
  | Some m =>
      if String.eqb m EmptyString then false
      else
        let lower := toLowerCase m in
        includes lower "not enough balance" || includes lower "allowance"
  end.

(** ** postOrder: what a run leaves behind *)

Inductive Side := BUY | SELL.
Inductive OrderType := FOK | GTC.

(** An order handed to the exchange client: [createMarketOrder] takes an
    [amount], [createOrder] a [size]; both are [o_quantity]. *)
Record Order := {
  o_market : bool;
  o_side : Side;
  o_tokenID : string;
  o_quantity : float;
  o_price : float;
  o_type : OrderType
}.

(** The documents an update of the activity store addresses. *)
Inductive Target :=
| ThisTrade
| PreviousBuy (idx : nat)
| AllPreviousBuys.

Record Update := {
  u_target : Target;
  u_bot : option bool;
  u_botExcutedTime : option Z;
  u_myBoughtSize : option float
}.

Inductive Event :=
| EvOrder (o : Order)
| EvUpdate (u : Update)
| EvSleep (ms : Z).

Definition mark_bot : Event :=
  EvUpdate {| u_target := ThisTrade; u_bot := Some true;
              u_botExcutedTime := None; u_myBoughtSize := None |}.

Definition mark_bot_retries (n : Z) : Event :=
  EvUpdate {| u_target := ThisTrade; u_bot := Some true;
              u_botExcutedTime := Some n; u_myBoughtSize := None |}.

Definition mark_bot_bought (bought : float) : Event :=
  EvUpdate {| u_target := ThisTrade; u_bot := Some true;
              u_botExcutedTime := None; u_myBoughtSize := Some bought |}.

Definition mark_bot_retries_bought (n : Z) (bought : float) : Event :=
  EvUpdate {| u_target := ThisTrade; u_bot := Some true;
              u_botExcutedTime := Some n; u_myBoughtSize := Some bought |}.

Definition orders_of (trace : list Event) : list Order :=
  flat_map (fun ev => match ev with EvOrder o => [o] | _ => [] end) trace.

(** One level of the order book, its decimal strings read by [parseFloat]. *)
Record Level := { lvl_price : float; lvl_size : float }.

(** ** postOrder: the retry loops *)

(** A [while] loop whose body reads one answer of the exchange per
    iteration.  [run] gives [None] when the fuel is used up before the loop
    has ended. *)
Inductive Step (St : Type) :=
| Continue (st : St)
| Break (st : St).
Arguments Continue {St} st.
Arguments Break {St} st.

Section Loop.
Context {St IO : Type}.
Variable cond : St -> bool.
Variable body : IO -> St -> Step St.

Fixpoint run (fuel : nat) (env : nat -> IO) (i : nat) (st : St) : option St :=
  if cond st then
    match fuel with
    | O => None
    | S fuel' =>
        match body (env i) st with
        | Continue st' => run fuel' env (S i) st'
        | Break st' => Some st'
        end
    end
  else Some st.
End Loop.

(** The local variables of a loop of [postOrder]: [total] is
    [totalBoughtTokens] in the buy branch and [totalSoldTokens] in the sell
    branch (the merge branch has none and leaves it at [0]); [trace] collects
    the orders and store updates made so far. *)
Record LoopState := {
  remaining : float;
  retry : Z;
  abortDueToFunds : bool;
  total : float;
  trace : list Event
}.

Definition emit (st : LoopState) (evs : list Event) : LoopState :=
  {| remaining := remaining st; retry := retry st;
     abortDueToFunds := abortDueToFunds st; total := total st;
     trace := trace st ++ evs |}.

(** What the exchange answers in one iteration: the side of the book the
    loop reads, and the outcome of creating and posting the order, which is
    a response or a thrown error with its message. *)
Inductive OrderResult :=
| Responded (resp : Response)
| Threw (errMsg : string).

Record Answer := { book : list Level; result : OrderResult }.

(** The merge and sell branches do not catch: a rejection by the client
    leaves [postOrder], so their loops are embedded for the answers the
    client resolves. *)
Record BidAnswer := { bids : list Level; resp : Response }.

Record Position := { pos_asset : string; pos_size : float; pos_avgPrice : float }.

Record Trade := {
  t_asset : string;
  t_conditionId : string;
  t_size : float;
  t_usdcSize : float;
  t_price : float
}.

(** [bids.reduce((max, bid) => bid.price > max.price ? bid : max, bids[0])]. *)
Definition maxPriceBid (first : Level) (bids : list Level) : Level :=
  fold_left (fun max bid => if JS.gt (lvl_price bid) (lvl_price max) then bid else max)
            bids first.

(** [asks.reduce((min, ask) => ask.price < min.price ? ask : min, asks[0])]. *)
Definition minPriceAsk (first : Level) (asks : list Level) : Level :=
  fold_left (fun min ask => if JS.lt (lvl_price ask) (lvl_price min) then ask else min)
            asks first.

(** *** Buy branch: order style and precision *)

Definition TAKER_MIN_TOKENS : float := 5%float.
Definition MAKER_MIN_USD : float := 1%float.

Inductive Style :=
| UseFOK (price : float)
| UseGTC (price : float)
| TooSmall.

(** Lines 262-305: [tradePrice] is [trade.price], [bestAsk] the parsed price
    of the lowest ask. *)
Definition selectOrderStyle (remaining tradePrice bestAsk : float) : Style :=
  let traderPrice := roundPrice tradePrice in
  let bestAskPrice := roundPrice bestAsk in
  let approxTokens := (remaining / traderPrice)%float in
  let approxUsd := remaining in
  if JS.ge approxUsd MAKER_MIN_USD then UseFOK bestAskPrice
  else if JS.ge approxTokens TAKER_MIN_TOKENS then
    let buffer := JS.Math_max 0.01 (bestAskPrice * 0.02)%float in
    let makerPrice := roundPrice (bestAskPrice - buffer)%float in
    let price := JS.Math_min traderPrice makerPrice in
    UseGTC (if JS.ge price bestAskPrice then roundPrice (bestAskPrice - 0.01)%float
            else price)
  else TooSmall.

Record Sized := { finalPrice : float; finalTokens : float; finalUsdCost : float }.

(** Lines 307-342. *)
Definition priceCents (price : float) : float := JS.Math_round (price * 100)%float.

Definition precision (useFOK : bool) (remaining price : float) : Sized :=
  let finalPrice := JS.parseFloat_toFixed (priceCents price / 100)%float 2 in
  if useFOK then
    let usdCents := JS.Math_floor (remaining * 100)%float in
    let finalUsdCost := JS.parseFloat_toFixed (usdCents / 100)%float 2 in
    let tokensRaw := (finalUsdCost / finalPrice)%float in
    let tokensTenThousandths := JS.Math_floor (tokensRaw * 10000)%float in
    {| finalPrice := finalPrice;
       finalTokens := JS.parseFloat_toFixed (tokensTenThousandths / 10000)%float 4;
       finalUsdCost := finalUsdCost |}
  else
    let tokensCents := JS.Math_floor (remaining * 10000 / priceCents price)%float in
    let usdTenThousandths := (tokensCents * priceCents price)%float in
    {| finalPrice := finalPrice;
       finalTokens := JS.parseFloat_toFixed (tokensCents / 100)%float 2;
       finalUsdCost := JS.parseFloat_toFixed (usdTenThousandths / 10000)%float 4 |}.

(** [errorMessage?.includes(needle)], falsy when there is no message. *)
Definition msg_includes (errorMessage : option string) (needle : string) : bool :=
  match errorMessage with
  | Some m => includes m needle
  | None => false
  end.

Definition msg_lower_includes (errorMessage : option string) (needle : string) : bool :=
  match errorMessage with
  | Some m => includes (toLowerCase m) needle
  | None => false
  end.

(** The part of the answer of [calculateOrderSize] the buy branch reads. *)
Record OrderCalc := { belowMinimum : bool; finalAmount : float }.

Section PostOrder.
Variable RETRY_LIMIT : Z.
Variable SKIP_SLIPPAGE_CHECK : bool.
(** [getTradeMultiplier(COPY_STRATEGY_CONFIG, usdcSize)] of the copy
    strategy, which is configuration outside these sources. *)
Variable getTradeMultiplier : float -> float.

Definition loop_cond (st : LoopState) : bool :=
  JS.gt (remaining st) 0 && (retry st <? RETRY_LIMIT).

(** *** Merge branch (lines 109-179) *)

(** Lines 112-141: the order of the iteration, [None] when the book has
    no bids. *)
Definition merge_order (tokenID : string) (bids : list Level) (st : LoopState)
  : option Order :=
  match bids with
  | [] => None
  | first :: _ =>
      let best := maxPriceBid first bids in
      Some {| o_market := true; o_side := SELL; o_tokenID := tokenID;
              o_quantity :=
                if JS.le (remaining st) (lvl_size best) then roundTokens (remaining st)
                else roundTokens (lvl_size best);
              o_price := roundPrice (lvl_price best);
              o_type := GTC |}
  end.

Definition merge_body (tokenID : string) (io : BidAnswer) (st : LoopState)
  : Step LoopState :=
  match merge_order tokenID (bids io) st with
  | None => Break (emit st [mark_bot])
  | Some order_arges =>
      let st := emit st [EvOrder order_arges] in
      if success_is_true (resp io) then
        Continue {| remaining := (remaining st - o_quantity order_arges)%float;
                    retry := 0;
                    abortDueToFunds := abortDueToFunds st;
                    total := total st; trace := trace st |}
      else if isInsufficientBalanceOrAllowanceError (extractOrderError (resp io)) then
        Break {| remaining := remaining st; retry := retry st;
                 abortDueToFunds := true;
                 total := total st; trace := trace st |}
      else
        Continue {| remaining := remaining st; retry := retry st + 1;
                    abortDueToFunds := abortDueToFunds st;
                    total := total st; trace := trace st |}
  end.

Definition merge_finish (st : LoopState) : list Event :=
  if abortDueToFunds st then trace st ++ [mark_bot_retries RETRY_LIMIT]
  else if RETRY_LIMIT <=? retry st then trace st ++ [mark_bot_retries (retry st)]
  else trace st ++ [mark_bot].

Definition merge_loop (tokenID : string) :=
  run loop_cond (merge_body tokenID).

Definition initial (remaining0 : float) : LoopState :=
  {| remaining := remaining0; retry := 0; abortDueToFunds := false;
     total := 0%float; trace := [] |}.

(** The merge branch of [postOrder]: the trace it leaves, or [None] when
    the loop has not ended within the fuel. *)
Definition postOrder_merge (fuel : nat) (my_position : option Position)
    (env : nat -> BidAnswer) : option (list Event) :=
  match my_position with
  | None => Some [mark_bot]
  | Some pos =>
      let remaining0 := roundTokens (pos_size pos) in
      if JS.lt remaining0 MIN_ORDER_SIZE_TOKENS then Some [mark_bot]
      else option_map merge_finish
             (merge_loop (pos_asset pos) fuel env 0%nat (initial remaining0))
  end.

(** *** Buy branch (lines 219-489) *)

Definition is_client_network_error (errMsg : string) : bool :=
  let lower := toLowerCase errMsg in
  includes lower "network" || includes lower "timeout"
  || includes lower "econnreset" || includes lower "socket"
  || includes lower "fetch".

Definition isRateLimitError (errorMessage : option string) : bool :=
  msg_lower_includes errorMessage "rate"
  || msg_lower_includes errorMessage "limit"
  || msg_lower_includes errorMessage "too many".

Definition isNetworkError (errorMessage : option string) : bool :=
  msg_lower_includes errorMessage "network"
  || msg_lower_includes errorMessage "timeout"
  || msg_lower_includes errorMessage "econnreset"
  || msg_lower_includes errorMessage "socket".

Definition with_retry (st : LoopState) (n : Z) : LoopState :=
  {| remaining := remaining st; retry := n;
     abortDueToFunds := abortDueToFunds st; total := total st;
     trace := trace st |}.

(** Lines 360-380: [createMarketOrder] with the amount in USD for a
    Fill-Or-Kill order, [createOrder] with the size in tokens otherwise. *)
Definition buy_order (trade : Trade) (useFOK : bool) (sz : Sized) : Order :=
  {| o_market := useFOK; o_side := BUY; o_tokenID := t_asset trade;
     o_quantity := if useFOK then finalUsdCost sz else finalTokens sz;
     o_price := finalPrice sz;
     o_type := if useFOK then FOK else GTC |}.

(** Lines 356-470: the order is created and posted, and the outcome
    handled. *)
Definition buy_submit (trade : Trade) (useFOK : bool) (sz : Sized)
    (outcome : OrderResult) (st : LoopState) : Step LoopState :=
  let st := emit st [EvOrder (buy_order trade useFOK sz)] in
  match outcome with
  | Threw errMsg =>
      if is_client_network_error errMsg then
        Continue (with_retry (emit st [EvSleep 3000]) (retry st + 1))
      else
        let retry' := retry st + 1 in
        Continue (with_retry
                    (if retry' <? RETRY_LIMIT then emit st [EvSleep 1000] else st)
                    retry')
  | Responded resp =>
      if success_is_true resp then
        Continue {| remaining := (remaining st - finalUsdCost sz)%float;
                    retry := 0;
                    abortDueToFunds := abortDueToFunds st;
                    total := (total st + finalTokens sz)%float;
                    trace := trace st |}
      else
        let errorMessage := extractOrderError resp in
        if isInsufficientBalanceOrAllowanceError errorMessage then
          Break {| remaining := remaining st; retry := retry st;
                   abortDueToFunds := true;
                   total := total st; trace := trace st |}
        else if msg_includes errorMessage "lower than the minimum: 5" then
          Break (emit st [mark_bot])
        else if msg_includes errorMessage "decimal"
                || msg_includes errorMessage "accuracy" then
          Break (emit st [mark_bot])
        else
          let st :=
            if isRateLimitError errorMessage then emit st [EvSleep 5000]
            else if isNetworkError errorMessage then emit st [EvSleep 2000]
            else st in
          let retry' := retry st + 1 in
          Continue (with_retry
                      (if retry' <? RETRY_LIMIT then emit st [EvSleep 1000] else st)
                      retry')
  end.

(** Lines 224-355: what the iteration does before it submits: it ends the
    loop, or has an order to submit. *)
Inductive Prepared :=
| Stop (evs : list Event)
| Submit (useFOK : bool) (sz : Sized).

Definition buy_prepare (trade : Trade) (asks : list Level) (st : LoopState)
  : Prepared :=
  match asks with
  | [] => Stop [mark_bot]
  | first :: _ =>
      let best := minPriceAsk first asks in
      if negb SKIP_SLIPPAGE_CHECK
         && JS.gt (lvl_price best) (t_price trade * 1.10)%float
      then Stop [mark_bot]
      else if JS.lt (remaining st) MIN_ORDER_SIZE_USD
      then Stop [mark_bot_bought (total st)]
      else
        match selectOrderStyle (remaining st) (t_price trade) (lvl_price best) with
        | TooSmall => Stop [mark_bot]
        | UseFOK price =>
            let sz := precision true (remaining st) price in
            if JS.strict_eq (finalTokens sz) 0 then Stop [mark_bot_bought (total st)]
            else Submit true sz
        | UseGTC price =>
            let sz := precision false (remaining st) price in
            if JS.strict_eq (finalTokens sz) 0 then Stop [mark_bot_bought (total st)]
            else Submit false sz
        end
  end.

Definition buy_body (trade : Trade) (io : Answer) (st : LoopState)
  : Step LoopState :=
  match buy_prepare trade (book io) st with
  | Stop evs => Break (emit st evs)
  | Submit useFOK sz => buy_submit trade useFOK sz (result io) st
  end.

Definition buy_finish (st : LoopState) : list Event :=
  if abortDueToFunds st
  then trace st ++ [mark_bot_retries_bought RETRY_LIMIT (total st)]
  else if RETRY_LIMIT <=? retry st
  then trace st ++ [mark_bot_retries_bought (retry st) (total st)]
  else trace st ++ [mark_bot_bought (total st)].

Definition buy_loop (trade : Trade) := run loop_cond (buy_body trade).

(** The buy branch.  [preScaledAmount] is the optional last argument of
    [postOrder]; without it the amount comes from [calculateOrderSize] of
    the copy strategy, whose answer [orderCalc] is taken as given. *)
Definition postOrder_buy (fuel : nat) (trade : Trade) (preScaledAmount : option float)
    (orderCalc : OrderCalc) (env : nat -> Answer) : option (list Event) :=
  match preScaledAmount with
  | Some amount =>
      option_map buy_finish
        (buy_loop trade fuel env 0%nat (initial (roundAmount amount)))
  | None =>
      if belowMinimum orderCalc then Some [mark_bot]
      else option_map buy_finish
             (buy_loop trade fuel env 0%nat
                (initial (roundAmount (finalAmount orderCalc))))
  end.

(** *** Sell branch (lines 497-708) *)

(** [previousBuys.reduce((sum, buy) => sum + (buy.myBoughtSize || 0), 0)]
    over the [myBoughtSize] of the tracked purchases. *)
Definition totalBoughtTokens (previousBuys : list float) : float :=
  fold_left (fun sum myBoughtSize => (sum + JS.or_else myBoughtSize 0)%float)
            previousBuys 0%float.

(** Lines 527-568: the quantity to sell before the minimum and the cap. *)
Definition sell_size (my_position : Position) (user_position : option Position)
    (trade : Trade) (totalBought : float) : float :=
  match user_position with
  | None => roundTokens (pos_size my_position)
  | Some user_position =>
      let trader_sell_percent :=
        (t_size trade / (pos_size user_position + t_size trade))%float in
      let baseSellSize :=
        if JS.gt totalBought 0 then (totalBought * trader_sell_percent)%float
        else (pos_size my_position * trader_sell_percent)%float in
      let multiplier := getTradeMultiplier (t_usdcSize trade) in
      roundTokens (baseSellSize * multiplier)%float
  end.

(** Lines 570-587: [None] when the branch returns without selling,
    otherwise the quantity the loop starts from. *)
Definition sell_target (my_position : Position) (user_position : option Position)
    (trade : Trade) (totalBought : float) : option float :=
  let remaining0 := sell_size my_position user_position trade totalBought in
  if JS.lt remaining0 MIN_ORDER_SIZE_TOKENS then None
  else if JS.gt remaining0 (pos_size my_position)
  then Some (roundTokens (pos_size my_position))
  else Some remaining0.

(** Lines 594-632: the order of the iteration, [None] when the loop ends
    before submitting (no bids, or a quantity below the minimum). *)
Definition sell_order (trade : Trade) (bids : list Level) (st : LoopState)
  : option Order :=
  match bids with
  | [] => None
  | first :: _ =>
      let best := maxPriceBid first bids in
      if JS.lt (remaining st) MIN_ORDER_SIZE_TOKENS then None
      else
        let sellAmount := roundTokens (JS.Math_min (remaining st) (lvl_size best)) in
        if JS.lt sellAmount MIN_ORDER_SIZE_TOKENS then None
        else Some {| o_market := true; o_side := SELL; o_tokenID := t_asset trade;
                     o_quantity := sellAmount;
                     o_price := roundPrice (lvl_price best);
                     o_type := GTC |}
  end.

Definition sell_body (trade : Trade) (io : BidAnswer) (st : LoopState)
  : Step LoopState :=
  match sell_order trade (bids io) st with
  | None => Break (emit st [mark_bot])
  | Some order_arges =>
      let st := emit st [EvOrder order_arges] in
      if success_is_true (resp io) then
        Continue {| remaining := (remaining st - o_quantity order_arges)%float;
                    retry := 0;
                    abortDueToFunds := abortDueToFunds st;
                    total := (total st + o_quantity order_arges)%float;
                    trace := trace st |}
      else if isInsufficientBalanceOrAllowanceError (extractOrderError (resp io))
      then
        Break {| remaining := remaining st; retry := retry st;
                 abortDueToFunds := true;
                 total := total st; trace := trace st |}
      else Continue (with_retry st (retry st + 1))
  end.

(** Lines 663-695: the tracked purchases are cleared or scaled down. *)
Definition sell_tracking (previousBuys : list float) (totalSold : float)
  : list Event :=
  let totalBought := totalBoughtTokens previousBuys in
  if JS.gt totalSold 0 && JS.gt totalBought 0 then
    let sellPercentage := (totalSold / totalBought)%float in
    if JS.ge sellPercentage 0.99 then
      [EvUpdate {| u_target := AllPreviousBuys; u_bot := None;
                   u_botExcutedTime := None; u_myBoughtSize := Some 0%float |}]
    else
      imap (fun idx myBoughtSize =>
              EvUpdate {| u_target := PreviousBuy idx; u_bot := None;
                          u_botExcutedTime := None;
                          u_myBoughtSize :=
                            Some (JS.or_else myBoughtSize 0 * (1 - sellPercentage))%float |})
           previousBuys
  else [].

Definition sell_finish (previousBuys : list float) (st : LoopState) : list Event :=
  let tracked := trace st ++ sell_tracking previousBuys (total st) in
  if abortDueToFunds st then tracked ++ [mark_bot_retries RETRY_LIMIT]
  else if RETRY_LIMIT <=? retry st then tracked ++ [mark_bot_retries (retry st)]
  else tracked ++ [mark_bot].

Definition sell_loop (trade : Trade) := run loop_cond (sell_body trade).

Definition postOrder_sell (fuel : nat) (my_position : option Position)
    (user_position : option Position) (trade : Trade)
    (previousBuys : list float) (env : nat -> BidAnswer) : option (list Event) :=
  match my_position with
  | None => Some [mark_bot]
  | Some my_position =>
      match sell_target my_position user_position trade
              (totalBoughtTokens previousBuys) with
      | None => Some [mark_bot]
      | Some remaining0 =>
          option_map (sell_finish previousBuys)
            (sell_loop trade fuel env 0%nat (initial remaining0))
      end
  end.

(** [postOrder]: the three branches by [condition]; any other condition is
    only logged.  [bidEnv] and [askEnv] are what the exchange answers when
    the loop reads the bids, respectively the asks. *)
Definition postOrder (fuel : nat) (condition : string)
    (my_position user_position : option Position) (trade : Trade)
    (previousBuys : list float) (preScaledAmount : option float)
    (orderCalc : OrderCalc) (bidEnv : nat -> BidAnswer) (askEnv : nat -> Answer)
  : option (list Event) :=
  if String.eqb condition "merge" then postOrder_merge fuel my_position bidEnv
  else if String.eqb condition "buy"
  then postOrder_buy fuel trade preScaledAmount orderCalc askEnv
  else if String.eqb condition "sell"
  then postOrder_sell fuel my_position user_position trade previousBuys bidEnv
  else Some [].

End PostOrder.

(** ** tradeExecutor: insertion-ordered maps *)

(** A JavaScript [Map] with string keys whose iteration order the code
    depends on: the entries in insertion order, each key once. *)
Module JsMap.
Section Ops.
Context {V : Type}.

Fixpoint get (m : list (string * V)) (k : string) : option V :=
  match m with
  | [] => None
  | (k', v) :: rest => if String.eqb k' k then Some v else get rest k
  end.

(** [set] keeps the position of a key that is present and appends a new
    one. *)
Fixpoint set (m : list (string * V)) (k : string) (v : V) : list (string * V) :=
  match m with
  | [] => [(k, v)]
  | (k', v') :: rest =>
      if String.eqb k' k then (k, v) :: rest else (k', v') :: set rest k v
  end.

Definition delete (m : list (string * V)) (k : string) : list (string * V) :=
  List.filter (fun kv => negb (String.eqb (fst kv) k)) m.

Definition keys (m : list (string * V)) : list string := map fst m.
End Ops.
End JsMap.

(** [ToBoolean] of an optional string: [undefined] and the empty string are
    falsy. *)
Definition str_truthy (s : option string) : bool :=
  match s with
  | Some s => negb (String.eqb s EmptyString)
  | None => false
  end.

(** ** tradeExecutor: market trackers and the arbitrage check *)

Definition MIN_TOKENS_FOR_ORDER : float := 5%float.
Definition ARB_MAX_COST_BASIS : float := 0.95%float.
Definition ARB_MAX_IMBALANCE : float := 0.25%float.

Record AssetExecution := {
  ae_asset : string;
  ae_quantity : float;
  ae_totalCost : float;
  ae_avgPrice : float
}.

Record MarketTracker := {
  mt_conditionId : string;
  mt_slug : option string;
  mt_assets : list (string * AssetExecution)
}.

(** The module-level [marketTrackers]. *)
Definition Trackers := gmap string MarketTracker.

(** [getMarketTracker]: the store afterwards and the tracker returned, which
    is the object the store holds. *)
Definition getMarketTracker (marketTrackers : Trackers) (conditionId : string)
    (slug : option string) : Trackers * MarketTracker :=
  let created :=
    match marketTrackers !! conditionId with
    | Some tracker => (marketTrackers, tracker)
    | None =>
        let tracker := {| mt_conditionId := conditionId; mt_slug := slug;
                          mt_assets := [] |} in
        (<[conditionId := tracker]> marketTrackers, tracker)
    end in
  let tracker := snd created in
  if str_truthy slug && negb (str_truthy (mt_slug tracker)) then
    let tracker := {| mt_conditionId := mt_conditionId tracker; mt_slug := slug;
                      mt_assets := mt_assets tracker |} in
    (<[conditionId := tracker]> (fst created), tracker)
  else created.

(** [recordExecution]: the store afterwards (the logging aside). *)
Definition recordExecution (marketTrackers : Trackers) (conditionId asset : string)
    (quantity cost : float) (slug : option string) : Trackers :=
  let (marketTrackers, tracker) := getMarketTracker marketTrackers conditionId slug in
  let side :=
    match JsMap.get (mt_assets tracker) asset with
    | Some existing =>
        let quantity' := (ae_quantity existing + quantity)%float in
        let totalCost' := (ae_totalCost existing + cost)%float in
        {| ae_asset := ae_asset existing; ae_quantity := quantity';
           ae_totalCost := totalCost'; ae_avgPrice := (totalCost' / quantity')%float |}
    | None =>
        {| ae_asset := asset; ae_quantity := quantity; ae_totalCost := cost;
           ae_avgPrice := (cost / quantity)%float |}
    end in
  <[conditionId := {| mt_conditionId := mt_conditionId tracker;
                      mt_slug := mt_slug tracker;
                      mt_assets := JsMap.set (mt_assets tracker) asset side |}]>
    marketTrackers.

(** The first entry of [tracker.assets] whose key is not [thisAsset]. *)
Fixpoint otherAssetOf (assets : list (string * AssetExecution)) (thisAsset : string)
  : option AssetExecution :=
  match assets with
  | [] => None
  | (asset, data) :: rest =>
      if negb (String.eqb asset thisAsset) then Some data
      else otherAssetOf rest thisAsset
  end.

Inductive Reason :=
| FirstSide
| WouldPushCostBasis
| WouldWorsenImbalance
| ReasonOK
| ImprovesBalance
| ImprovesCostBasis.

Record ArbCheck := {
  ok : bool;
  reason : Reason;
  costBasis : float;
  imbalance : float
}.

(** The four figures [checkArbBeforeExecution] compares, computed on lines
    171-206 from the side already recorded for this asset, the other side,
    and the incoming trade. *)
Record ArbFigures := {
  currentCostBasis : float;
  currentImbalance : float;
  newCostBasis : float;
  newImbalance : float
}.

Definition arbFigures (thisExisting : option AssetExecution)
    (otherAsset : AssetExecution) (newQuantity newAvgPrice : float) : ArbFigures :=
  let currentThisQty :=
    match thisExisting with
    | Some e => JS.or_else (ae_quantity e) 0
    | None => 0%float
    end in
  let currentThisCost :=
    match thisExisting with
    | Some e => JS.or_else (ae_totalCost e) 0
    | None => 0%float
    end in
  let newThisQty := (currentThisQty + newQuantity)%float in
  let newThisCost := (currentThisCost + newQuantity * newAvgPrice)%float in
  let newThisAvgPrice := (newThisCost / newThisQty)%float in
  let otherQty := ae_quantity otherAsset in
  let otherAvgPrice := ae_avgPrice otherAsset in
  let currentThisAvgPrice :=
    if JS.gt currentThisQty 0 then (currentThisCost / currentThisQty)%float
    else 0%float in
  let currentTotalQty := (currentThisQty + otherQty)%float in
  let newTotalQty := (newThisQty + otherQty)%float in
  {| currentCostBasis := (currentThisAvgPrice + otherAvgPrice)%float;
     currentImbalance :=
       if JS.gt currentTotalQty 0
       then (JS.Math_abs (currentThisQty - otherQty) / currentTotalQty)%float
       else 0%float;
     newCostBasis := (newThisAvgPrice + otherAvgPrice)%float;
     newImbalance := (JS.Math_abs (newThisQty - otherQty) / newTotalQty)%float |}.

(** Lines 211-239: the decision on the four figures. *)
Definition arbDecision (f : ArbFigures) : ArbCheck :=
  if JS.ge (newCostBasis f) ARB_MAX_COST_BASIS
     && JS.lt (currentCostBasis f) ARB_MAX_COST_BASIS
  then {| ok := false; reason := WouldPushCostBasis;
          costBasis := newCostBasis f; imbalance := newImbalance f |}
  else if JS.gt (newImbalance f) (currentImbalance f)
          && JS.gt (newImbalance f) ARB_MAX_IMBALANCE
  then {| ok := false; reason := WouldWorsenImbalance;
          costBasis := newCostBasis f; imbalance := newImbalance f |}
  else {| ok := true;
          reason := if JS.lt (newImbalance f) (currentImbalance f) then ImprovesBalance
                    else if JS.lt (newCostBasis f) (currentCostBasis f)
                    then ImprovesCostBasis
                    else ReasonOK;
          costBasis := newCostBasis f; imbalance := newImbalance f |}.

(** The other side the check compares against: [None] is the "first side"
    case, taken when no other asset is recorded or its quantity is zero. *)
Definition otherSide (tracker : MarketTracker) (thisAsset : string)
  : option AssetExecution :=
  match otherAssetOf (mt_assets tracker) thisAsset with
  | Some otherAsset =>
      if JS.strict_eq (ae_quantity otherAsset) 0 then None else Some otherAsset
  | None => None
  end.

Definition checkArbBeforeExecution (marketTrackers : Trackers)
    (conditionId thisAsset : string) (newQuantity newAvgPrice : float)
    (slug : option string) : Trackers * ArbCheck :=
  let (marketTrackers, tracker) := getMarketTracker marketTrackers conditionId slug in
  let thisExisting := JsMap.get (mt_assets tracker) thisAsset in
  match otherSide tracker thisAsset with
  | None =>
      (marketTrackers,
       {| ok := true; reason := FirstSide; costBasis := 0%float; imbalance := 0%float |})
  | Some otherAsset =>
      (marketTrackers,
       arbDecision (arbFigures thisExisting otherAsset newQuantity newAvgPrice))
  end.

(** ** tradeExecutor: the aggregation buffer *)

Record TradeWithUser := {
  tw_id : string;
  tw_userAddress : string;
  tw_conditionId : string;
  tw_asset : string;
  tw_side : option string;
  tw_slug : option string;
  tw_usdcSize : float;
  tw_price : float;
  tw_scaledUsdcSize : option float
}.

Record AggregatedTrade := {
  agg_userAddress : string;
  agg_conditionId : string;
  agg_asset : string;
  agg_side : string;
  agg_slug : option string;
  agg_trades : list TradeWithUser;
  totalRawUsdcSize : float;
  totalScaledUsdcSize : float;
  averagePrice : float;
  firstTradeTime : Z;
  lastTradeTime : Z
}.

(** The module-level [tradeAggregationBuffer]. *)
Definition Buffer := list (string * AggregatedTrade).

Definition getAggregationKey (trade : TradeWithUser) : string :=
  (tw_userAddress trade ++ ":" ++ tw_conditionId trade ++ ":" ++ tw_asset trade)%string.

(** [addToAggregationBuffer], with [now] the value of [Date.now()]. *)
Definition addToAggregationBuffer (buffer : Buffer) (trade : TradeWithUser) (now : Z)
  : Buffer :=
  let key := getAggregationKey trade in
  let scaledSize :=
    match tw_scaledUsdcSize trade with
    | Some s => s
    | None => tw_usdcSize trade
    end in
  match JsMap.get buffer key with
  | Some existing =>
      let trades := agg_trades existing ++ [trade] in
      let totalRaw := (totalRawUsdcSize existing + tw_usdcSize trade)%float in
      let totalValue :=
        fold_left (fun sum t => (sum + tw_usdcSize t * tw_price t)%float) trades 0%float in
      JsMap.set buffer key
        {| agg_userAddress := agg_userAddress existing;
           agg_conditionId := agg_conditionId existing;
           agg_asset := agg_asset existing;
           agg_side := agg_side existing;
           agg_slug := agg_slug existing;
           agg_trades := trades;
           totalRawUsdcSize := totalRaw;
           totalScaledUsdcSize := (totalScaledUsdcSize existing + scaledSize)%float;
           averagePrice := (totalValue / totalRaw)%float;
           firstTradeTime := firstTradeTime existing;
           lastTradeTime := now |}
  | None =>
      JsMap.set buffer key
        {| agg_userAddress := tw_userAddress trade;
           agg_conditionId := tw_conditionId trade;
           agg_asset := tw_asset trade;
           agg_side := if str_truthy (tw_side trade)
                       then default "BUY"%string (tw_side trade) else "BUY"%string;
           agg_slug := tw_slug trade;
           agg_trades := [trade];
           totalRawUsdcSize := tw_usdcSize trade;
           totalScaledUsdcSize := scaledSize;
           averagePrice := tw_price trade;
           firstTradeTime := now;
           lastTradeTime := now |}
  end.

(** [agg.averagePrice > 0 ? agg.totalScaledUsdcSize / agg.averagePrice : 0]. *)
Definition totalTokens (agg : AggregatedTrade) : float :=
  if JS.gt (averagePrice agg) 0 then (totalScaledUsdcSize agg / averagePrice agg)%float
  else 0%float.

Definition isReady (agg : AggregatedTrade) : bool :=
  JS.ge (totalTokens agg) MIN_TOKENS_FOR_ORDER.

(** [getReadyAggregations]: the entries are visited in insertion order; a
    ready one is pushed on [ready] and its key deleted from the buffer.  The
    result is [ready] and the buffer afterwards. *)
Definition getReadyAggregations (buffer : Buffer) : list AggregatedTrade * Buffer :=
  fold_left
    (fun (acc : list AggregatedTrade * Buffer) (entry : string * AggregatedTrade) =>
       let (key, agg) := entry in
       if isReady agg then (fst acc ++ [agg], JsMap.delete (snd acc) key) else acc)
    buffer ([], buffer).

(** The keys [getReadyAggregations] deletes while it visits [l]. *)
Definition released_in (l : Buffer) (key : string) : bool :=
  existsb (fun e => isReady (snd e) && String.eqb (fst e) key) l.

(** One round of [doAggregatedTrading] as far as the market trackers go: the
    check, and after a dispatched [postOrder] that returned ([threw] is
    whether it raised instead) the record of the execution. *)
Definition processAggregation (marketTrackers : Trackers) (agg : AggregatedTrade)
    (threw : bool) : Trackers :=
  let (marketTrackers, arbCheck) :=
    checkArbBeforeExecution marketTrackers (agg_conditionId agg) (agg_asset agg)
      (totalTokens agg) (averagePrice agg) (agg_slug agg) in
  if negb (ok arbCheck) then marketTrackers
  else if threw then marketTrackers
  else recordExecution marketTrackers (agg_conditionId agg) (agg_asset agg)
         (totalTokens agg) (totalScaledUsdcSize agg) (agg_slug agg).

(** ** The rejection rule as the specification words it *)

(** "Reject only if (a) prospective cost basis crosses above the ceiling
    while current basis was below it, or (b) prospective imbalance is both
    larger than current imbalance and above the imbalance ceiling." *)
Definition spec_rejects (f : ArbFigures) : bool :=
  (JS.gt (newCostBasis f) ARB_MAX_COST_BASIS
   && JS.lt (currentCostBasis f) ARB_MAX_COST_BASIS)
  || (JS.gt (newImbalance f) (currentImbalance f)
      && JS.gt (newImbalance f) ARB_MAX_IMBALANCE).

(** "The only state change the check can cause is inserting an empty
    tracker (with no sides) for a previously unseen conditionId." *)
Definition only_inserts_empty_tracker (before after : Trackers)
    (conditionId : string) (slug : option string) : Prop :=
  after = before
  \/ (before !! conditionId = None
      /\ after = <[conditionId := {| mt_conditionId := conditionId; mt_slug := slug;
                                     mt_assets := [] |}]> before).

(** ** Concrete markets used below *)

Definition side_of (asset : string) (quantity cost : float) : AssetExecution :=
  {| ae_asset := asset; ae_quantity := quantity; ae_totalCost := cost;
     ae_avgPrice := (cost / quantity)%float |}.

(** Side B holds 10 tokens bought for 4.00, side A 5 tokens bought for 2.50. *)
Definition paired_market : Trackers :=
  recordExecution (recordExecution ∅ "cond-1" "B" 10 4 None) "cond-1" "A" 5 2.5 None.

(** Side B holds 8 tokens bought for 2.00 (0.25 each); nothing on side A. *)
Definition one_sided_market : Trackers :=
  recordExecution ∅ "cond-1" "B" 8 2 None.

(** ** Concrete exchanges used below *)

Definition accepted : Response :=
  RespObject {| success := true; error := ErrAbsent; errorMsg := Some EmptyString;
                message := None |}.

Definition rejected (msg : string) : Response :=
  RespObject {| success := false; error := ErrAbsent; errorMsg := Some msg;
                message := None |}.


(** A position of one token, and an exchange whose best bid is for 0.00004
    tokens at 0.52 and which accepts every order. *)
Definition one_token : Position :=
  {| pos_asset := "token-A"; pos_size := 1%float; pos_avgPrice := 0.5%float |}.

Definition dust_bids : nat -> BidAnswer :=
  fun _ => {| bids := [{| lvl_price := 0.52%float; lvl_size := 0.00004%float |}];
              resp := accepted |}.



Definition a_trade : Trade :=
  {| t_asset := "token-A"; t_conditionId := "cond-1"; t_size := 40%float;
     t_usdcSize := 20%float; t_price := 0.50%float |}.

(** A position of 0.3 tokens, and an exchange that bids for 0.1 tokens
    first and for 5 tokens afterwards, accepts the first two orders and
    rejects the later ones as invalid. *)
Definition three_tenths : Position :=
  {| pos_asset := "token-A"; pos_size := 0.3%float; pos_avgPrice := 0.5%float |}.

Definition two_fills : nat -> BidAnswer :=
  fun i => {| bids := [{| lvl_price := 0.52%float;
                          lvl_size := match i with
                                      | O => 0.1%float
                                      | _ => 5%float
                                      end |}];
              resp := match i with
                      | 0%nat | 1%nat => accepted
                      | _ => rejected "invalid amount"
                      end |}.

(** A position of 0.05 tokens, and an exchange with 100 tokens bid at 0.52
    that accepts every order. *)
Definition dust_position : Position :=
  {| pos_asset := "token-A"; pos_size := 0.05%float; pos_avgPrice := 0.5%float |}.

Definition deep_bids : nat -> BidAnswer :=
  fun _ => {| bids := [{| lvl_price := 0.52%float; lvl_size := 100%float |}];
              resp := accepted |}.



(** Three buys of one trader in one market, scaled to 0.80, 0.70 and 0.70
    USD at 0.40, and one buy of 0.50 USD at 0.50 in another market. *)
Definition buy_event (id conditionId asset : string) (usdcSize price scaled : float)
  : TradeWithUser :=
  {| tw_id := id; tw_userAddress := "0xtrader"; tw_conditionId := conditionId;
     tw_asset := asset; tw_side := Some "BUY"%string; tw_slug := None;
     tw_usdcSize := usdcSize; tw_price := price; tw_scaledUsdcSize := Some scaled |}.

Definition two_accumulators : Buffer :=
  addToAggregationBuffer
    (addToAggregationBuffer
       (addToAggregationBuffer
          (addToAggregationBuffer [] (buy_event "t1" "cond-1" "A" 8 0.4 0.8) 1000)
          (buy_event "t2" "cond-2" "C" 5 0.5 0.5) 1001)
       (buy_event "t3" "cond-1" "A" 7 0.4 0.7) 1002)
    (buy_event "t4" "cond-1" "A" 7 0.4 0.7) 1003.

(** The whole numbers from [lo] to [hi]. *)
Definition Z_range (lo hi : Z) : list Z :=
  map (fun k => lo + Z.of_nat k) (seq 0 (Z.to_nat (hi + 1 - lo))).

(** ** Notions used to state what the loops of postOrder leave behind *)

(** The state an iteration hands on, whether the loop goes on or not. *)
Definition step_state {St : Type} (s : Step St) : St :=
  match s with
  | Continue st | Break st => st
  end.


(** The update that closes a trade: [bot: true] on the trade itself, with
    [botExcutedTime] left alone or set to the retry limit. *)
Definition marks_processed (RETRY_LIMIT : Z) (ev : Event) : Prop :=
  exists u, ev = EvUpdate u
            /\ u_target u = ThisTrade /\ u_bot u = Some true
            /\ (u_botExcutedTime u = None \/ u_botExcutedTime u = Some RETRY_LIMIT).


(** ** Notions used to state what the market trackers hold *)

(** The side recorded for an asset of a market, if any. *)
Definition recordedSide (marketTrackers : Trackers) (conditionId asset : string)
  : option AssetExecution :=
  match marketTrackers !! conditionId with
  | Some tracker => JsMap.get (mt_assets tracker) asset
  | None => None
  end.

(** The side after an execution of [quantity] tokens for [cost] has been
    added to the side recorded before. *)
Definition sideAfter (before : option AssetExecution) (asset : string)
    (quantity cost : float) : AssetExecution :=
  match before with
  | Some existing =>
      {| ae_asset := ae_asset existing;
         ae_quantity := (ae_quantity existing + quantity)%float;
         ae_totalCost := (ae_totalCost existing + cost)%float;
         ae_avgPrice := ((ae_totalCost existing + cost)
                         / (ae_quantity existing + quantity))%float |}
  | None =>
      {| ae_asset := asset; ae_quantity := quantity; ae_totalCost := cost;
         ae_avgPrice := (cost / quantity)%float |}
  end.


(** ** Notions used to state what the aggregation buffer holds *)

(** [trade.scaledUsdcSize ?? trade.usdcSize]. *)
Definition scaledSizeOf (trade : TradeWithUser) : float :=
  match tw_scaledUsdcSize trade with
  | Some s => s
  | None => tw_usdcSize trade
  end.

(** The sums of an accumulator in the order the code adds them up: from
    the first trade on, one trade after the other. *)
Definition rawTotal (trades : list TradeWithUser) : float :=
  match trades with
  | [] => 0%float
  | first :: rest =>
      fold_left (fun sum t => (sum + tw_usdcSize t)%float) rest (tw_usdcSize first)
  end.

Definition scaledTotal (trades : list TradeWithUser) : float :=
  match trades with
  | [] => 0%float
  | first :: rest =>
      fold_left (fun sum t => (sum + scaledSizeOf t)%float) rest (scaledSizeOf first)
  end.

(** The price of a single trade, and from the second trade on the mean of
    the prices weighted by the raw USD sizes. *)
Definition weightedAverage (trades : list TradeWithUser) : float :=
  match trades with
  | [first] => tw_price first
  | _ =>
      (fold_left (fun sum t => (sum + tw_usdcSize t * tw_price t)%float) trades 0%float
       / rawTotal trades)%float
  end.

Definition accumulator_consistent (key : string) (agg : AggregatedTrade) : Prop :=
  Forall (fun t => getAggregationKey t = key) (agg_trades agg)
  /\ (exists first rest,
         agg_trades agg = first :: rest
         /\ agg_userAddress agg = tw_userAddress first
         /\ agg_conditionId agg = tw_conditionId first
         /\ agg_asset agg = tw_asset first)
  /\ totalRawUsdcSize agg = rawTotal (agg_trades agg)
  /\ totalScaledUsdcSize agg = scaledTotal (agg_trades agg)
  /\ averagePrice agg = weightedAverage (agg_trades agg).

(** The buffers the executor can hold: it starts empty, trades are added
    and ready accumulators are released. *)
Inductive reachable : Buffer -> Prop :=
| reach_empty : reachable []
| reach_add (buffer : Buffer) (trade : TradeWithUser) (now : Z) :
    reachable buffer -> reachable (addToAggregationBuffer buffer trade now)
| reach_release (buffer : Buffer) :
    reachable buffer -> reachable (snd (getReadyAggregations buffer)).

(** ** tradeExecutor: the market filter and the intake of a polling cycle *)

Definition ALLOWED_MARKET_KEYWORDS : list (list string) :=
  [["btc"%string; "15m"%string]; ["eth"%string; "15m"%string]].

(** [s?.toLowerCase() || ''] of an optional string. *)
Definition lowered (s : option string) : string :=
  match s with
  | Some s => toLowerCase s
  | None => EmptyString
  end.

(** [isAllowedMarket], which reads the [slug] and the [eventSlug] of the
    trade. *)
Definition isAllowedMarket (slug eventSlug : option string) : bool :=
  match ALLOWED_MARKET_KEYWORDS with
  | [] => true
  | _ =>
      let combined := (lowered slug ++ " " ++ lowered eventSlug)%string in
      existsb (fun keywords =>
                 forallb (fun keyword => includes combined (toLowerCase keyword)) keywords)
              ALLOWED_MARKET_KEYWORDS
  end.

(** Lines 537-598 of [tradeExecutor], for one trade of a cycle with the
    aggregation enabled: a trade outside the allowed markets is marked
    processed, a BUY is buffered with the amount [calculateOrderSize] gives
    as its scaled size, and any other trade is executed at once by
    [doTrading]. *)
Inductive Routed := Filtered | Buffered | Immediate.

(** [trade.side === 'BUY']. *)
Definition is_BUY (side : option string) : bool :=
  match side with
  | Some s => String.eqb s "BUY"
  | None => false
  end.

Definition route (trade : TradeWithUser) (eventSlug : option string) : Routed :=
  if isAllowedMarket (tw_slug trade) eventSlug then
    if is_BUY (tw_side trade) then Buffered else Immediate
  else Filtered.

(** [trade.scaledUsdcSize = orderCalc.finalAmount]. *)
Definition withScaledUsdcSize (trade : TradeWithUser) (finalAmount : float)
  : TradeWithUser :=
  {| tw_id := tw_id trade; tw_userAddress := tw_userAddress trade;
     tw_conditionId := tw_conditionId trade; tw_asset := tw_asset trade;
     tw_side := tw_side trade; tw_slug := tw_slug trade;
     tw_usdcSize := tw_usdcSize trade; tw_price := tw_price trade;
     tw_scaledUsdcSize := Some finalAmount |}.

(** The buffer after the trade has gone through the cycle. *)
Definition intake (buffer : Buffer) (trade : TradeWithUser) (eventSlug : option string)
    (finalAmount : float) (now : Z) : Buffer :=
  match route trade eventSlug with
  | Buffered => addToAggregationBuffer buffer (withScaledUsdcSize trade finalAmount) now
  | _ => buffer
  end.

(** A string without a space, as the keywords are. *)
Fixpoint no_space (s : string) : bool :=
  match s with
  | EmptyString => true
  | String c r => negb (Ascii.eqb c " ") && no_space r
  end.

(** ** More concrete exchanges and runs *)

(** An exchange with 10 tokens bid at 0.52 (asked at 0.50) that rejects
    every order as invalid. *)
Definition rejecting_bids : nat -> BidAnswer :=
  fun _ => {| bids := [{| lvl_price := 0.52%float; lvl_size := 10%float |}];
              resp := rejected "invalid amount" |}.

Definition rejecting_asks : nat -> Answer :=
  fun _ => {| book := [{| lvl_price := 0.50%float; lvl_size := 10%float |}];
              result := Responded (rejected "invalid amount") |}.

(** The copy strategy asks for 2 USD. *)
Definition two_usd : OrderCalc := {| belowMinimum := false; finalAmount := 2%float |}.

(** What buying 2 USD leaves on [rejecting_asks] with three retries: three
    Fill-Or-Kill orders of 2 USD at 0.50, a pause after the first two, and
    the trade closed with the retry limit. *)
Definition rejected_buy_run : list Event :=
  let order := EvOrder {| o_market := true; o_side := BUY; o_tokenID := "token-A";
                          o_quantity := 2%float; o_price := 0.5%float;
                          o_type := FOK |} in
  [order; EvSleep 1000; order; EvSleep 1000; order; mark_bot_retries_bought 3 0].

(** What selling [one_token] leaves on [two_fills]: 0.1 and 0.9 tokens
    sold at 0.52. *)
Definition sold_one_token_run : list Event :=
  [EvOrder {| o_market := true; o_side := SELL; o_tokenID := "token-A";
              o_quantity := 0.1%float; o_price := 0.52%float; o_type := GTC |};
   EvOrder {| o_market := true; o_side := SELL; o_tokenID := "token-A";
              o_quantity := 0.9%float; o_price := 0.52%float; o_type := GTC |};
   mark_bot].



(** A buffer that holds one buy observed at the price zero. *)
Definition unpriced_buffer : Buffer :=
  addToAggregationBuffer [] (buy_event "t0" "cond-3" "D" 5 0 0.5) 1000.

(** A fourth buy of the trader in the first market of [two_accumulators]. *)
Definition next_buy : TradeWithUser := buy_event "t5" "cond-1" "A" 6 0.4 0.6.

(** * Properties *)

(** ** The order of binary64 numbers *)

Lemma SFcompare_antisym (x y : spec_float) :
  SFcompare y x = option_map CompOpp (SFcompare x y).
Proof.
  destruct x as [[]|[]| |[] mx ex], y as [[]|[]| |[] my ey]; simpl; try reflexivity;
    rewrite (Z.compare_antisym ex ey);
    destruct (ex ?= ey)%Z; simpl; try reflexivity;
    change (Pos.compare_cont Eq my mx) with (Pos.compare my mx);
    change (Pos.compare_cont Eq mx my) with (Pos.compare mx my);
    rewrite (Pos.compare_antisym mx my);
    destruct (mx ?= my)%positive; reflexivity.
Qed.

Lemma SFleb_trans (x y z : spec_float) :
  SFleb x y = true -> SFleb y z = true -> SFleb x z = true.
Proof.
  unfold SFleb.
  destruct x as [[]|[]| |[] mx ex], y as [[]|[]| |[] my ey], z as [[]|[]| |[] mz ez];
    simpl; try reflexivity; try discriminate;
    change (Pos.compare_cont Eq mx my) with (Pos.compare mx my);
    change (Pos.compare_cont Eq my mz) with (Pos.compare my mz);
    change (Pos.compare_cont Eq mx mz) with (Pos.compare mx mz);
    destruct (Z.compare_spec ex ey), (Z.compare_spec ey ez), (Z.compare_spec ex ez);
    simpl; try reflexivity; try discriminate; try lia;
    destruct (Pos.compare_spec mx my), (Pos.compare_spec my mz),
             (Pos.compare_spec mx mz);
    simpl; try reflexivity; try discriminate; try lia.
Qed.

Lemma leb_not_gt (a b : float) :
  (a <=? b)%float = true -> (b <? a)%float = false.
Proof.
  rewrite FloatAxioms.leb_spec, FloatAxioms.ltb_spec. unfold SFleb, SFltb.
  rewrite (SFcompare_antisym (Prim2SF a) (Prim2SF b)).
  destruct (SFcompare (Prim2SF a) (Prim2SF b)) as [[]|]; simpl; congruence.
Qed.

Lemma ltb_leb (a b : float) :
  (a <? b)%float = true -> (a <=? b)%float = true.
Proof.
  rewrite FloatAxioms.leb_spec, FloatAxioms.ltb_spec. unfold SFleb, SFltb.
  destruct (SFcompare (Prim2SF a) (Prim2SF b)) as [[]|]; congruence.
Qed.

Lemma leb_trans (a b c : float) :
  (a <=? b)%float = true -> (b <=? c)%float = true -> (a <=? c)%float = true.
Proof. rewrite !FloatAxioms.leb_spec. apply SFleb_trans. Qed.





(** A check on every whole number of a range. *)
Lemma Z_range_forallb (P : Z -> bool) (lo hi : Z) :
  forallb P (Z_range lo hi) = true -> forall n, lo <= n <= hi -> P n = true.
Proof.
  intros Hall n Hn. rewrite forallb_forall in Hall. apply Hall.
  unfold Z_range. apply in_map_iff. exists (Z.to_nat (n - lo)).
  split; [lia |]. apply in_seq. lia.
Qed.

(** ** The risk gate *)

Lemma otherSide_spec (tracker : MarketTracker) (thisAsset : string)
    (otherAsset : AssetExecution) :
  otherSide tracker thisAsset = Some otherAsset <->
  otherAssetOf (mt_assets tracker) thisAsset = Some otherAsset
  /\ JS.strict_eq (ae_quantity otherAsset) 0 = false.
Proof.
  unfold otherSide.
  destruct (otherAssetOf (mt_assets tracker) thisAsset) as [o|].
  - destruct (JS.strict_eq (ae_quantity o) 0) eqn:E; split.
    + discriminate.
    + intros [[= ->] H]. congruence.
    + intros [= ->]. auto.
    + intros [[= ->] _]. reflexivity.
  - split; [discriminate | intros [H _]; discriminate].
Qed.

(** The check returns the store [getMarketTracker] leaves, and decides on
    the tracker it returns. *)
Lemma checkArb_unfold (marketTrackers : Trackers) (conditionId thisAsset : string)
    (newQuantity newAvgPrice : float) (slug : option string) :
  let got := getMarketTracker marketTrackers conditionId slug in
  checkArbBeforeExecution marketTrackers conditionId thisAsset newQuantity newAvgPrice slug
  = (fst got,
     match otherSide (snd got) thisAsset with
     | None => {| ok := true; reason := FirstSide;
                  costBasis := 0%float; imbalance := 0%float |}
     | Some otherAsset =>
         arbDecision (arbFigures (JsMap.get (mt_assets (snd got)) thisAsset)
                                 otherAsset newQuantity newAvgPrice)
     end).
Proof.
  unfold checkArbBeforeExecution.
  destruct (getMarketTracker marketTrackers conditionId slug) as [m t]; simpl.
  destruct (otherSide t thisAsset); reflexivity.
Qed.

Lemma arbDecision_ok (f : ArbFigures) :
  ok (arbDecision f) = false <->
  (JS.ge (newCostBasis f) ARB_MAX_COST_BASIS = true
   /\ JS.lt (currentCostBasis f) ARB_MAX_COST_BASIS = true)
  \/ (JS.gt (newImbalance f) (currentImbalance f) = true
      /\ JS.gt (newImbalance f) ARB_MAX_IMBALANCE = true).
Proof.
  unfold arbDecision.
  destruct (JS.ge (newCostBasis f) ARB_MAX_COST_BASIS),
           (JS.lt (currentCostBasis f) ARB_MAX_COST_BASIS),
           (JS.gt (newImbalance f) (currentImbalance f)),
           (JS.gt (newImbalance f) ARB_MAX_IMBALANCE); simpl;
    intuition congruence.
Qed.

(** C1. Risk gate monotonicity: whenever a complementary side with a
    non-zero quantity is recorded for the market, an incoming trade whose
    prospective imbalance is at most the current imbalance, and whose
    prospective combined cost basis is at most the current one (or whose
    current basis is already at or above the 0.95 ceiling), is never
    rejected: [checkArbBeforeExecution] returns [ok = true]. *)
Theorem risk_gate_monotone (marketTrackers : Trackers)
    (conditionId thisAsset : string) (newQuantity newAvgPrice : float)
    (slug : option string) (otherAsset : AssetExecution) :
  let tracker := snd (getMarketTracker marketTrackers conditionId slug) in
  let f := arbFigures (JsMap.get (mt_assets tracker) thisAsset) otherAsset
                      newQuantity newAvgPrice in
  otherSide tracker thisAsset = Some otherAsset ->
  JS.le (newImbalance f) (currentImbalance f) = true ->
  JS.le (newCostBasis f) (currentCostBasis f) = true
  \/ JS.ge (currentCostBasis f) ARB_MAX_COST_BASIS = true ->
  ok (snd (checkArbBeforeExecution marketTrackers conditionId thisAsset
             newQuantity newAvgPrice slug)) = true.
Proof.
  intros tracker f Hother Himb Hbasis.
  rewrite checkArb_unfold. cbn [snd]. fold tracker. rewrite Hother. fold f.
  destruct (ok (arbDecision f)) eqn:Hok; [reflexivity | exfalso].
  apply arbDecision_ok in Hok.
  destruct Hok as [[Hnew Hcur] | [Hworse _]].
  - unfold JS.ge, JS.lt, JS.le in *.
    destruct Hbasis as [Hle | Hat].
    + pose proof (leb_trans _ _ _ Hnew Hle) as Hceil.
      apply leb_not_gt in Hceil. congruence.
    + apply leb_not_gt in Hat. congruence.
  - unfold JS.gt, JS.le in *. apply leb_not_gt in Himb. congruence.
Qed.

(** The hypotheses of C1 hold when 5 more tokens of side A at 0.40 even out
    a market holding 10 of B and 5 of A. *)
Lemma risk_gate_monotone_witness :
  ok (snd (checkArbBeforeExecution paired_market "cond-1" "A" 5 0.4 None)) = true.
Proof.
  apply (risk_gate_monotone paired_market "cond-1" "A" 5 0.4 None
           (side_of "B" 10 4)).
  - vm_compute. reflexivity.
  - vm_compute. reflexivity.
  - left. vm_compute. reflexivity.
Defined.

(** C2, as stated, fails: with 8 tokens of side B recorded at 0.25, buying
    8 tokens of side A at 0.70 brings the combined basis to exactly 0.95.
    It is not above the ceiling and the imbalance improves, so neither (a)
    nor (b) of the claim holds, yet the check rejects the trade. *)
Lemma basis_reaching_ceiling_is_rejected :
  otherSide (snd (getMarketTracker one_sided_market "cond-1" None)) "A"
  = Some (side_of "B" 8 2)
  /\ spec_rejects (arbFigures None (side_of "B" 8 2) 8 0.7) = false
  /\ newCostBasis (arbFigures None (side_of "B" 8 2) 8 0.7) = ARB_MAX_COST_BASIS
  /\ ok (snd (checkArbBeforeExecution one_sided_market "cond-1" "A" 8 0.7 None))
     = false.
Proof. vm_compute. repeat split; reflexivity. Qed.

(** C2, amended. When no other side is recorded for the market, or the
    other side has quantity zero, the check allows the trade.  Otherwise it
    rejects exactly when (a) the prospective combined cost basis is at or
    above the 0.95 ceiling while the current one is below it, or (b) the
    prospective imbalance is strictly larger than the current one and above
    0.25. *)
Theorem arb_check_rejects_iff (marketTrackers : Trackers)
    (conditionId thisAsset : string) (newQuantity newAvgPrice : float)
    (slug : option string) :
  let tracker := snd (getMarketTracker marketTrackers conditionId slug) in
  let result := snd (checkArbBeforeExecution marketTrackers conditionId thisAsset
                       newQuantity newAvgPrice slug) in
  match otherSide tracker thisAsset with
  | None => ok result = true
  | Some otherAsset =>
      let f := arbFigures (JsMap.get (mt_assets tracker) thisAsset) otherAsset
                          newQuantity newAvgPrice in
      ok result = false <->
      (JS.ge (newCostBasis f) ARB_MAX_COST_BASIS = true
       /\ JS.lt (currentCostBasis f) ARB_MAX_COST_BASIS = true)
      \/ (JS.gt (newImbalance f) (currentImbalance f) = true
          /\ JS.gt (newImbalance f) ARB_MAX_IMBALANCE = true)
  end.
Proof.
  intros tracker result. subst result.
  rewrite checkArb_unfold. cbn [snd]. fold tracker.
  destruct (otherSide tracker thisAsset) as [otherAsset|].
  - apply arbDecision_ok.
  - reflexivity.
Qed.

Lemma getMarketTracker_spec (marketTrackers : Trackers) (conditionId : string)
    (slug : option string) :
  let after := fst (getMarketTracker marketTrackers conditionId slug) in
  let tracker := snd (getMarketTracker marketTrackers conditionId slug) in
  after !! conditionId = Some tracker
  /\ (forall c, c <> conditionId -> after !! c = marketTrackers !! c)
  /\ match marketTrackers !! conditionId with
     | Some before =>
         mt_assets tracker = mt_assets before
         /\ mt_conditionId tracker = mt_conditionId before
         /\ (mt_slug tracker = mt_slug before
             \/ (str_truthy (mt_slug before) = false /\ mt_slug tracker = slug))
     | None =>
         tracker = {| mt_conditionId := conditionId; mt_slug := slug; mt_assets := [] |}
     end.
Proof.
  unfold getMarketTracker.
  destruct (marketTrackers !! conditionId) as [before|] eqn:Hget; cbn [fst snd].
  - destruct (str_truthy slug && negb (str_truthy (mt_slug before))) eqn:Hslug;
      cbn [fst snd mt_assets mt_conditionId mt_slug].
    + apply andb_true_iff in Hslug as [_ Hnone]. apply negb_true_iff in Hnone.
      split; [apply lookup_insert_eq |].
      split; [intros c Hc; apply lookup_insert_ne; congruence |].
      auto.
    + split; [assumption |]. split; [reflexivity |]. auto.
  - cbn [mt_slug]. rewrite andb_negb_r. cbn [fst snd].
    split; [apply lookup_insert_eq |].
    split; [intros c Hc; apply lookup_insert_ne; congruence | reflexivity].
Qed.

(** C10, as stated, fails: a check that brings a slug to a tracker recorded
    without one writes the slug into it, which changes the store without
    inserting a tracker. *)
Lemma check_fills_in_missing_slug :
  ~ only_inserts_empty_tracker paired_market
      (fst (checkArbBeforeExecution paired_market "cond-1" "A" 5 0.4
              (Some "btc-updown-15m"%string)))
      "cond-1" (Some "btc-updown-15m"%string).
Proof.
  intros [H | [H _]].
  - apply (f_equal (fun m : Trackers => mt_slug <$> m !! "cond-1"%string)) in H.
    vm_compute in H. discriminate.
  - vm_compute in H. discriminate.
Qed.

(** C10, amended. [checkArbBeforeExecution] never modifies a recorded side:
    the trackers of all other markets are untouched, and the tracker of the
    market checked keeps its sides (each [AssetExecution] with its quantity,
    total cost and average price) and its conditionId.  The only changes the
    check can make to the store are to insert an empty tracker for a
    conditionId not seen before, and to fill in the slug of a tracker that
    has none.  In [doAggregatedTrading] the store after a rejected check, or
    after a [postOrder] that raised, is the one the check left: sides change
    through [recordExecution] only. *)
Theorem arb_check_frame (marketTrackers : Trackers)
    (conditionId thisAsset : string) (newQuantity newAvgPrice : float)
    (slug : option string) :
  let after := fst (checkArbBeforeExecution marketTrackers conditionId thisAsset
                      newQuantity newAvgPrice slug) in
  (forall c, c <> conditionId -> after !! c = marketTrackers !! c)
  /\ match marketTrackers !! conditionId with
     | Some before =>
         exists tracker,
           after !! conditionId = Some tracker
           /\ mt_assets tracker = mt_assets before
           /\ mt_conditionId tracker = mt_conditionId before
           /\ (mt_slug tracker = mt_slug before
               \/ (str_truthy (mt_slug before) = false /\ mt_slug tracker = slug))
     | None =>
         after !! conditionId
         = Some {| mt_conditionId := conditionId; mt_slug := slug; mt_assets := [] |}
     end
  /\ (forall (agg : AggregatedTrade) (threw : bool),
        let checked := checkArbBeforeExecution marketTrackers (agg_conditionId agg)
                         (agg_asset agg) (totalTokens agg) (averagePrice agg)
                         (agg_slug agg) in
        ok (snd checked) = false \/ threw = true ->
        processAggregation marketTrackers agg threw = fst checked).
Proof.
  intros after. subst after. rewrite checkArb_unfold. cbn [fst].
  destruct (getMarketTracker_spec marketTrackers conditionId slug)
    as (Hhere & Hothers & Hkept).
  split; [exact Hothers |]. split.
  - destruct (marketTrackers !! conditionId) as [before|].
    + eexists. split; [exact Hhere | exact Hkept].
    + rewrite Hhere, Hkept. reflexivity.
  - intros agg threw Hskip. unfold processAggregation.
    destruct (checkArbBeforeExecution marketTrackers (agg_conditionId agg)
                (agg_asset agg) (totalTokens agg) (averagePrice agg) (agg_slug agg))
      as [m r]. cbn [fst snd] in *.
    destruct (ok r); cbn [negb].
    + destruct Hskip as [? | ->]; [discriminate | reflexivity].
    + reflexivity.
Qed.


(** ** The flooring helpers *)

(** C9, evaluated where it fails.  [roundPrice 0.58] is [0.57], because
    [0.58 * 100] is [57.99999999999999] in binary64, and flooring [0.57]
    again gives [0.56]: the helper is not idempotent.  On
    [0.09999999999999999] the product with [100] rounds up to [10], so the
    result [0.1] exceeds the argument.  [roundAmount] is the same function,
    and [roundTokens] fails in the same two ways. *)
Theorem flooring_helpers_drift :
  (0.58 * 100)%float = 57.99999999999999%float
  /\ roundPrice 0.58 = 0.57%float
  /\ roundPrice (roundPrice 0.58) = 0.56%float
  /\ JS.strict_eq (roundPrice (roundPrice 0.58)) (roundPrice 0.58) = false
  /\ JS.strict_eq (roundAmount (roundAmount 0.58)) (roundAmount 0.58) = false
  /\ roundTokens 1.001 = 1.0009%float
  /\ JS.strict_eq (roundTokens (roundTokens 1.001)) (roundTokens 1.001) = false
  /\ (0.09999999999999999 * 100)%float = 10%float
  /\ roundAmount 0.09999999999999999 = 0.1%float
  /\ JS.le (roundAmount 0.09999999999999999) 0.09999999999999999 = false
  /\ JS.le (roundPrice 0.09999999999999999) 0.09999999999999999 = false
  /\ JS.le (roundTokens 0.013099999999999999) 0.013099999999999999 = false.
Proof. vm_compute. repeat split; reflexivity. Qed.

(** ** The precision block of the buy branch *)

(** C6, evaluated where it fails.  A target of 1.135 USD leaves
    [remaining = 1.13]; the Fill-Or-Kill order then submits 1.12 USD, not
    1.13, since [1.13 * 100] is [112.99999999999999].  A target of 0.575 USD
    leaves [remaining = 0.57]; at a price of 0.01 the limit order is for
    56.99 tokens, not 57, since [0.57 * 10000] is [5699.999999999999]. *)
Theorem precision_block_drifts :
  roundAmount 1.135 = 1.13%float
  /\ selectOrderStyle 1.13 0.5 0.5 = UseFOK 0.5
  /\ precision true 1.13 0.5
     = {| finalPrice := 0.5; finalTokens := 2.24; finalUsdCost := 1.12 |}
  /\ roundAmount 0.575 = 0.57%float
  /\ selectOrderStyle 0.57 0.01 0.03 = UseGTC 0.01
  /\ (0.57 * 10000)%float = 5699.999999999999%float
  /\ precision false 0.57 0.01
     = {| finalPrice := 0.01; finalTokens := 56.99; finalUsdCost := 0.5699 |}.
Proof. vm_compute. repeat split; reflexivity. Qed.

(** What holds of the block: [parseFloat] of [toFixed] returns a decimal
    with the digits asked for. *)
Lemma parseFloat_toFixed_decimal (x : float) (d : Z) (s : bool) (n : Z) :
  (1e21 <=? PrimFloat.abs x)%float = false ->
  JS.toFixed_digits x d = Some (s, n) ->
  JS.parseFloat_toFixed x d = if s then (- JS.decimal n d)%float else JS.decimal n d.
Proof.
  intros Hsmall Hdigits. unfold JS.parseFloat_toFixed. rewrite Hsmall, Hdigits.
  reflexivity.
Qed.

(** ** The merge loop *)



Lemma dust_bids_loop (fuel : nat) :
  forall (i : nat) (tr : list Event),
    merge_loop 3 "token-A" fuel dust_bids i
      {| remaining := 1%float; retry := 0; abortDueToFunds := false;
         total := 0%float; trace := tr |} = None.
Proof.
  unfold merge_loop.
  induction fuel as [|fuel IH]; intros i tr; [reflexivity |].
  cbn [run].
  change (loop_cond 3 _) with true. cbv iota.
  match goal with
  | |- match ?b with _ => _ end = None =>
      let b' := eval vm_compute in b in change b with b'
  end.
  apply IH.
Qed.

(** C3, evaluated where it fails.  With one token to merge, a best bid of
    0.00004 tokens and an exchange that accepts the orders, every order is
    for [roundTokens 0.00004 = 0] tokens: the success resets the retry
    counter and nothing is subtracted, so the loop has not ended after any
    number of iterations. *)
Theorem merge_loop_never_ends_on_dust_bids :
  roundTokens 0.00004 = 0%float
  /\ forall fuel : nat, postOrder_merge 3 fuel (Some one_token) dust_bids = None.
Proof.
  split; [vm_compute; reflexivity |].
  intros fuel. unfold postOrder_merge.
  change (roundTokens (pos_size one_token)) with (roundTokens 1).
  replace (roundTokens 1) with 1%float by (vm_compute; reflexivity).
  change (JS.lt 1 MIN_ORDER_SIZE_TOKENS) with false. cbv iota.
  unfold initial. cbn [pos_asset one_token].
  rewrite dust_bids_loop. reflexivity.
Qed.

(** The sell loop, unlike the merge loop, submits no order below the
    minimum of 0.10 tokens. *)
Lemma sell_order_above_minimum (trade : Trade) (bs : list Level) (st : LoopState)
    (o : Order) :
  sell_order trade bs st = Some o ->
  JS.lt (o_quantity o) MIN_ORDER_SIZE_TOKENS = false.
Proof.
  unfold sell_order. destruct bs as [|first rest]; [discriminate |].
  destruct (JS.lt (remaining st) MIN_ORDER_SIZE_TOKENS); [discriminate |].
  destruct (JS.lt (roundTokens _) MIN_ORDER_SIZE_TOKENS) eqn:E; [discriminate |].
  intros [= <-]. exact E.
Qed.

(** The zero order also comes up on its own: merging 0.3 tokens against
    bids for 0.1 and then 5 tokens sells 0.1 and 0.1999 tokens, which leaves
    a positive remainder below 0.0001, and from then on the loop submits
    orders for 0 tokens until the rejections use up the retries. *)
Example merge_of_three_tenths :
  option_map (fun t => (map o_quantity (orders_of t), last t))
    (postOrder_merge 3 10 (Some three_tenths) two_fills)
  = Some ([0.1; 0.1999; 0; 0; 0]%float, Some (mark_bot_retries 3)).
Proof. vm_compute. reflexivity. Qed.

(** ** Funds errors *)

Lemma orders_of_app (t1 t2 : list Event) :
  orders_of (t1 ++ t2) = orders_of t1 ++ orders_of t2.
Proof. unfold orders_of. apply flat_map_app. Qed.

Lemma orders_of_updates {A : Type} (l : list A) :
  forall f : nat -> A -> Update,
    orders_of (imap (fun idx x => EvUpdate (f idx x)) l) = [].
Proof.
  induction l as [|x l IH]; intros f; [reflexivity |].
  cbn. apply (IH (fun idx => f (S idx))).
Qed.

(** The decay of the tracked purchases submits no order. *)
Lemma orders_of_sell_tracking (previousBuys : list float) (totalSold : float) :
  orders_of (sell_tracking previousBuys totalSold) = [].
Proof.
  unfold sell_tracking.
  destruct (JS.gt totalSold 0 && JS.gt (totalBoughtTokens previousBuys) 0);
    [| reflexivity].
  destruct (JS.ge _ _); [reflexivity |].
  apply orders_of_updates.
Qed.




(** ** Sell sizing *)

(** C4, as stated, fails: the trader has closed the position and the
    controlled account holds 0.05 tokens.  The target is below the minimum
    of 0.10 tokens, so the branch marks the trade and returns: no order is
    submitted and the position is kept.  A held 12.34567 tokens gives a
    target of 12.3456 tokens only. *)
Lemma closed_trader_dust_is_kept :
  sell_target (fun _ => 1%float) dust_position None a_trade 0 = None
  /\ postOrder_sell 3 (fun _ => 1%float) 5 (Some dust_position) None a_trade []
       deep_bids = Some [mark_bot]
  /\ sell_target (fun _ => 1%float)
       {| pos_asset := "token-A"; pos_size := 12.34567; pos_avgPrice := 0.5 |}
       None a_trade 0 = Some 12.3456%float.
Proof. vm_compute. repeat split; reflexivity. Qed.

(** C4, amended.  While the trader still holds a position the quantity is
    [roundTokens (basis * p * multiplier)] with
    [p = trade.size / (user_position.size + trade.size)], the basis being
    the tracked total bought when that is positive and the held position
    otherwise; when the trader has closed the position it is the held
    position floored by [roundTokens].  Below 0.10 tokens nothing is sold.
    Otherwise the quantity to sell is that quantity, unless it exceeds the
    held position, in which case it is [roundTokens] of the held position:
    it never exceeds the held position as long as [roundTokens] of the held
    position does not. *)
Theorem sell_sizing (getTradeMultiplier : float -> float) (my_position : Position)
    (user_position : option Position) (trade : Trade) (totalBought : float) :
  let held := pos_size my_position in
  let size0 := sell_size getTradeMultiplier my_position user_position trade
                 totalBought in
  match user_position with
  | Some user_position =>
      let p := (t_size trade / (pos_size user_position + t_size trade))%float in
      let basis := if JS.gt totalBought 0 then totalBought else held in
      size0 = roundTokens (basis * p * getTradeMultiplier (t_usdcSize trade))%float
  | None => size0 = roundTokens held
  end
  /\ match sell_target getTradeMultiplier my_position user_position trade
             totalBought with
     | None => JS.lt size0 MIN_ORDER_SIZE_TOKENS = true
     | Some quantity =>
         JS.lt size0 MIN_ORDER_SIZE_TOKENS = false
         /\ (if JS.gt size0 held then quantity = roundTokens held
             else quantity = size0)
         /\ (JS.gt (roundTokens held) held = false -> JS.gt quantity held = false)
     end.
Proof.
  intros held size0. split.
  - subst size0. unfold sell_size. destruct user_position as [up|]; [| reflexivity].
    cbv zeta. destruct (JS.gt totalBought 0); reflexivity.
  - unfold sell_target. fold size0. fold held.
    destruct (JS.lt size0 MIN_ORDER_SIZE_TOKENS); [reflexivity |].
    destruct (JS.gt size0 held) eqn:Hcap; repeat split; auto.
Qed.

(** Where the bound needs its proviso: a held position of
    0.10289999999999999 tokens, the trader gone, gives 0.1029 tokens to
    sell. *)
Example cap_exceeds_held_by_drift :
  sell_target (fun _ => 1%float)
    {| pos_asset := "token-A"; pos_size := 0.10289999999999999; pos_avgPrice := 0.5 |}
    None a_trade 0 = Some 0.1029%float
  /\ JS.gt 0.1029 0.10289999999999999 = true.
Proof. vm_compute. split; reflexivity. Qed.

(** ** Order style of the buy branch *)






(** X9. On the price grid of the exchange, whole cents from 0.01 to 1.00,
    the maker price of the buy branch is strictly below the floored best
    ask. *)
Lemma maker_price_below_ask_on_cents (cents : Z) :
  1 <= cents <= 100 ->
  let bestAskPrice := roundPrice (JS.decimal cents 2) in
  JS.lt (roundPrice (bestAskPrice - JS.Math_max 0.01 (bestAskPrice * 0.02))%float)
        bestAskPrice = true.
Proof.
  revert cents. apply Z_range_forallb. vm_compute. reflexivity.
Qed.

(** X10. On the whole-cent prices from 0.00 to 1.00 the cent arithmetic of
    the precision block is exact: the price in cents is the whole number,
    and the final price is the price as it is. *)
Lemma whole_cent_price_is_kept (cents : Z) (useFOK : bool) (remaining0 : float) :
  0 <= cents <= 100 ->
  priceCents (JS.decimal cents 2) = JS.of_Z cents
  /\ finalPrice (precision useFOK remaining0 (JS.decimal cents 2)) = JS.decimal cents 2.
Proof.
  intros Hc.
  assert (H : (Leibniz.eqb (priceCents (JS.decimal cents 2)) (JS.of_Z cents)
               && Leibniz.eqb
                    (JS.parseFloat_toFixed (priceCents (JS.decimal cents 2) / 100)%float 2)
                    (JS.decimal cents 2)) = true).
  { revert cents Hc. apply Z_range_forallb. vm_compute. reflexivity. }
  apply andb_true_iff in H as [H1 H2].
  apply Leibniz.eqb_spec in H1, H2.
  split; [exact H1 |]. unfold precision. destruct useFOK; exact H2.
Qed.

(** A clip of 0.50 USD observed at 0.08 with the lowest ask at 0.50 is
    6.25 tokens: a limit order at 0.08, below the maker price 0.49. *)
Example gtc_at_trader_price :
  selectOrderStyle 0.5 0.08 0.5 = UseGTC 0.08
  /\ roundPrice (0.5 - JS.Math_max 0.01 (0.5 * 0.02))%float = 0.49%float.
Proof. vm_compute. split; reflexivity. Qed.




(** ** The aggregation buffer *)

Lemma filter_filter_andb {A : Type} (P Q : A -> bool) (l : list A) :
  List.filter P (List.filter Q l) = List.filter (fun x => Q x && P x) l.
Proof.
  induction l as [|x l IH]; simpl; [reflexivity |].
  destruct (Q x); simpl; [destruct (P x) |]; rewrite ?IH; reflexivity.
Qed.

Lemma getReady_fold (l : Buffer) :
  forall (ready : list AggregatedTrade) (buffer : Buffer),
    fold_left
      (fun (acc : list AggregatedTrade * Buffer) (entry : string * AggregatedTrade) =>
         let (key, agg) := entry in
         if isReady agg then (fst acc ++ [agg], JsMap.delete (snd acc) key) else acc)
      l (ready, buffer)
    = (ready ++ map snd (List.filter (fun e => isReady (snd e)) l),
       List.filter (fun e => negb (released_in l (fst e))) buffer).
Proof.
  induction l as [|[key agg] l IH]; intros ready buffer; simpl.
  - rewrite app_nil_r. f_equal. symmetry. apply forallb_filter_id.
    apply forallb_forall. reflexivity.
  - destruct (isReady agg) eqn:Hready; simpl.
    + rewrite IH. rewrite <- app_assoc. f_equal.
      unfold JsMap.delete. rewrite filter_filter_andb.
      apply filter_ext. intros [k a]. simpl.
      rewrite (String.eqb_sym key k). rewrite negb_orb. reflexivity.
    + rewrite IH. reflexivity.
Qed.

Lemma released_in_own_key (buffer : Buffer) :
  List.NoDup (JsMap.keys buffer) ->
  forall e, In e buffer -> released_in buffer (fst e) = isReady (snd e).
Proof.
  unfold JsMap.keys.
  induction buffer as [|[k a] buffer IH]; intros Hnodup e Hin; [destruct Hin |].
  apply NoDup_cons_iff in Hnodup as [Hfresh Hnodup]. simpl in *.
  destruct Hin as [<- | Hin]; simpl.
  - rewrite String.eqb_refl, andb_true_r.
    destruct (isReady a); [reflexivity |]. simpl.
    apply not_true_is_false. intros Hex. apply existsb_exists in Hex as (e' & Hin' & He').
    apply andb_true_iff in He' as [_ Hk]. apply String.eqb_eq in Hk.
    apply Hfresh. rewrite <- Hk. apply in_map. exact Hin'.
  - rewrite (IH Hnodup e Hin).
    destruct (String.eqb k (fst e)) eqn:Hk; [| rewrite andb_false_r; reflexivity].
    apply String.eqb_eq in Hk. exfalso. apply Hfresh. rewrite Hk.
    apply in_map. exact Hin.
Qed.

(** [getReadyAggregations] splits the buffer by [isReady]. *)
Lemma getReadyAggregations_filter (buffer : Buffer) :
  List.NoDup (JsMap.keys buffer) ->
  getReadyAggregations buffer
  = (map snd (List.filter (fun e => isReady (snd e)) buffer),
     List.filter (fun e => negb (isReady (snd e))) buffer).
Proof.
  intros Hnodup. unfold getReadyAggregations. rewrite getReady_fold. simpl.
  f_equal. apply filter_ext_in. intros e Hin.
  rewrite (released_in_own_key buffer Hnodup e Hin). reflexivity.
Qed.

Lemma get_filter_absent {V : Type} (P : string * V -> bool) (m : list (string * V))
    (k : string) :
  ~ In k (JsMap.keys m) -> JsMap.get (List.filter P m) k = None.
Proof.
  unfold JsMap.keys.
  induction m as [|[k' v'] m IH]; simpl; intros Hk; [reflexivity |].
  assert (Hne : String.eqb k' k = false)
    by (apply String.eqb_neq; intros ->; apply Hk; left; reflexivity).
  destruct (P (k', v')); simpl; rewrite ?Hne; apply IH; tauto.
Qed.

Lemma get_filter_present {V : Type} (P : string * V -> bool) (m : list (string * V))
    (k : string) (v : V) :
  List.NoDup (JsMap.keys m) -> In (k, v) m ->
  JsMap.get (List.filter P m) k = if P (k, v) then Some v else None.
Proof.
  unfold JsMap.keys.
  induction m as [|[k' v'] m IH]; simpl; intros Hnodup Hin; [destruct Hin |].
  apply NoDup_cons_iff in Hnodup as [Hfresh Hnodup].
  destruct Hin as [[= -> ->] | Hin].
  - destruct (P (k, v)); simpl.
    + rewrite String.eqb_refl. reflexivity.
    + apply get_filter_absent. exact Hfresh.
  - assert (Hne : String.eqb k' k = false).
    { apply String.eqb_neq. intros ->. apply Hfresh.
      change k with (fst (k, v)). apply in_map. exact Hin. }
    destruct (P (k', v')); simpl; rewrite ?Hne; apply IH; assumption.
Qed.

Lemma NoDup_keys_filter {V : Type} (P : string * V -> bool) (m : list (string * V)) :
  List.NoDup (JsMap.keys m) -> List.NoDup (JsMap.keys (List.filter P m)).
Proof.
  unfold JsMap.keys.
  induction m as [|[k v] m IH]; simpl; intros Hnodup; [constructor |].
  apply NoDup_cons_iff in Hnodup as [Hfresh Hnodup].
  destruct (P (k, v)); simpl; [| apply IH; assumption].
  constructor; [| apply IH; assumption].
  intros Hin. apply Hfresh. apply in_map_iff in Hin as (e & <- & He).
  apply filter_In in He as [He _]. apply in_map. exact He.
Qed.




(** ** Scenarios of the specification, run on the embedding *)

(** Sell proportion: the trader keeps 60 tokens and sells 40, 80 tokens are
    tracked as bought: the base size is 32 tokens. *)
Example scenario_sell_proportion :
  sell_size (fun _ => 1%float)
    {| pos_asset := "token-A"; pos_size := 50; pos_avgPrice := 0.5 |}
    (Some {| pos_asset := "token-A"; pos_size := 60; pos_avgPrice := 0.5 |})
    a_trade 80
  = 32%float.
Proof. vm_compute. reflexivity. Qed.

(** Merge walk: a held position of 12.3456 tokens starts the loop at 12.3455
    tokens, since [12.3456 * 10000] is [123455.99999999999] in binary64. *)
Example scenario_merge_walk : roundTokens 12.3456 = 12.3455%float.
Proof. vm_compute. reflexivity. Qed.

(** Risk gate crossing: with 10 tokens of side A at 0.40 and 10 of side B at
    0.50 recorded, 5 more tokens of B at 0.62 give a combined basis of
    0.40 + 8.10 / 15 = 0.94 and an imbalance of 0.2: the check allows the
    trade. *)
Example scenario_risk_gate :
  snd (checkArbBeforeExecution
         (recordExecution (recordExecution ∅ "cond-1" "A" 10 4 None)
                          "cond-1" "B" 10 5 None)
         "cond-1" "B" 5 0.62 None)
  = {| ok := true; reason := ReasonOK;
       costBasis := (0.4 + 8.1 / 15)%float; imbalance := 0.2%float |}.
Proof. vm_compute. reflexivity. Qed.

(** * Further properties of postOrder and tradeExecutor *)

(** ** The best level of a book *)

Lemma SFltb_trans (x y z : spec_float) :
  SFltb x y = true -> SFltb y z = true -> SFltb x z = true.
Proof.
  unfold SFltb.
  destruct x as [[]|[]| |[] mx ex], y as [[]|[]| |[] my ey], z as [[]|[]| |[] mz ez];
    simpl; try reflexivity; try discriminate;
    change (Pos.compare_cont Eq mx my) with (Pos.compare mx my);
    change (Pos.compare_cont Eq my mz) with (Pos.compare my mz);
    change (Pos.compare_cont Eq mx mz) with (Pos.compare mx mz);
    destruct (Z.compare_spec ex ey), (Z.compare_spec ey ez), (Z.compare_spec ex ez);
    simpl; try reflexivity; try discriminate; try lia;
    destruct (Pos.compare_spec mx my), (Pos.compare_spec my mz),
             (Pos.compare_spec mx mz);
    simpl; try reflexivity; try discriminate; try lia.
Qed.

Lemma ltb_trans (a b c : float) :
  (a <? b)%float = true -> (b <? c)%float = true -> (a <? c)%float = true.
Proof. rewrite !FloatAxioms.ltb_spec. apply SFltb_trans. Qed.

(** What the two scans keep: the level chosen so far is one of the levels
    seen, and no level seen has a strictly better price. *)
Lemma best_scan (better : float -> float -> bool) (levels : list Level) :
  (forall a b c, better a b = true -> better b c = true -> better a c = true) ->
  (forall a, better a a = false) ->
  forall (seen : list Level) (best : Level),
    In best seen ->
    (forall l, In l seen -> better (lvl_price l) (lvl_price best) = false) ->
    let chosen :=
      fold_left (fun best l => if better (lvl_price l) (lvl_price best) then l else best)
                levels best in
    In chosen (seen ++ levels)
    /\ forall l, In l (seen ++ levels) -> better (lvl_price l) (lvl_price chosen) = false.
Proof.
  intros Htrans Hirr.
  induction levels as [|l levels IH]; intros seen best Hin Hbest; cbn [fold_left].
  - rewrite app_nil_r. split; assumption.
  - replace (seen ++ l :: levels) with ((seen ++ [l]) ++ levels)
      by (rewrite <- app_assoc; reflexivity).
    destruct (better (lvl_price l) (lvl_price best)) eqn:Hl; apply IH.
    + apply in_or_app. right. left. reflexivity.
    + intros l' Hin'. apply in_app_or in Hin' as [Hin' | [<- | []]].
      * destruct (better (lvl_price l') (lvl_price l)) eqn:E; trivial.
        rewrite <- (Hbest l' Hin'). symmetry. apply (Htrans _ _ _ E Hl).
      * apply Hirr.
    + apply in_or_app. left. exact Hin.
    + intros l' Hin'. apply in_app_or in Hin' as [Hin' | [<- | []]].
      * apply Hbest. exact Hin'.
      * exact Hl.
Qed.

Lemma ltb_irrefl (a : float) : (a <? a)%float = false.
Proof.
  destruct (a <? a)%float eqn:E; trivial.
  pose proof (leb_not_gt a a (ltb_leb a a E)). congruence.
Qed.

(** X1. The scans of the order book (the [reduce] of the merge, buy and
    sell loops) return a level of the book, and no level of the book has a
    strictly higher price than the bid chosen, respectively a strictly
    lower price than the ask chosen, whatever the order of the book. *)
Theorem best_level_is_optimal (first : Level) (rest : list Level) :
  let bestBid := maxPriceBid first (first :: rest) in
  let bestAsk := minPriceAsk first (first :: rest) in
  (In bestBid (first :: rest)
   /\ forall bid, In bid (first :: rest) ->
                  JS.gt (lvl_price bid) (lvl_price bestBid) = false)
  /\ (In bestAsk (first :: rest)
      /\ forall ask, In ask (first :: rest) ->
                     JS.lt (lvl_price ask) (lvl_price bestAsk) = false).
Proof.
  intros bestBid bestAsk. subst bestBid bestAsk. unfold maxPriceBid, minPriceAsk.
  split.
  - destruct (best_scan JS.gt (first :: rest)) with (seen := [first]) (best := first)
      as [Hin Hbest].
    + intros a b c Hab Hbc. unfold JS.gt in *. apply (ltb_trans _ _ _ Hbc Hab).
    + intros a. apply ltb_irrefl.
    + left. reflexivity.
    + intros l [<- | []]. apply ltb_irrefl.
    + split.
      * destruct Hin as [Hin | Hin]; [left; exact Hin | exact Hin].
      * intros bid Hbid. apply Hbest. right. exact Hbid.
  - destruct (best_scan JS.lt (first :: rest)) with (seen := [first]) (best := first)
      as [Hin Hbest].
    + intros a b c. apply ltb_trans.
    + intros a. apply ltb_irrefl.
    + left. reflexivity.
    + intros l [<- | []]. apply ltb_irrefl.
    + split.
      * destruct Hin as [Hin | Hin]; [left; exact Hin | exact Hin].
      * intros ask Hask. apply Hbest. right. exact Hask.
Qed.

(** ** What every run of postOrder leaves behind *)

Section Run.
Context {IO : Type}.
Variable cond : LoopState -> bool.
Variable body : IO -> LoopState -> Step LoopState.

(** A property of the loop state that every iteration keeps holds when the
    loop has ended. *)
Lemma run_invariant (P : LoopState -> Prop) :
  (forall io st, cond st = true -> P st ->
                 match body io st with Continue st' | Break st' => P st' end) ->
  forall (fuel : nat) (env : nat -> IO) (i : nat) (st st' : LoopState),
    P st -> run cond body fuel env i st = Some st' -> P st'.
Proof.
  intros Hstep. induction fuel as [|fuel IH]; intros env i st st' HP; simpl;
    destruct (cond st) eqn:Hcond; try discriminate;
    try (intros [= <-]; exact HP).
  specialize (Hstep (env i) st Hcond HP).
  destruct (body (env i) st) as [st1|st1].
  - apply IH. exact Hstep.
  - intros [= <-]. exact Hstep.
Qed.
End Run.

(** The retry counter stays within the limit. *)
Lemma merge_body_retry (RETRY_LIMIT : Z) (tokenID : string) (io : BidAnswer)
    (st : LoopState) :
  loop_cond RETRY_LIMIT st = true -> 0 <= RETRY_LIMIT ->
  match merge_body tokenID io st with
  | Continue st' | Break st' => retry st' <= RETRY_LIMIT
  end.
Proof.
  unfold loop_cond. intros Hcond Hlim. apply andb_true_iff in Hcond as [_ Hretry].
  apply Z.ltb_lt in Hretry. unfold merge_body.
  destruct (merge_order tokenID (bids io) st); cbn; [| lia].
  destruct (success_is_true (resp io)); cbn; [lia |].
  destruct (isInsufficientBalanceOrAllowanceError _); cbn; lia.
Qed.

Lemma sell_body_retry (RETRY_LIMIT : Z) (trade : Trade) (io : BidAnswer)
    (st : LoopState) :
  loop_cond RETRY_LIMIT st = true -> 0 <= RETRY_LIMIT ->
  match sell_body trade io st with
  | Continue st' | Break st' => retry st' <= RETRY_LIMIT
  end.
Proof.
  unfold loop_cond. intros Hcond Hlim. apply andb_true_iff in Hcond as [_ Hretry].
  apply Z.ltb_lt in Hretry. unfold sell_body.
  destruct (sell_order trade (bids io) st); cbn; [| lia].
  destruct (success_is_true (resp io)); cbn; [lia |].
  destruct (isInsufficientBalanceOrAllowanceError _); cbn; lia.
Qed.

Lemma buy_body_retry (RETRY_LIMIT : Z) (SKIP_SLIPPAGE_CHECK : bool) (trade : Trade)
    (io : Answer) (st : LoopState) :
  loop_cond RETRY_LIMIT st = true -> 0 <= RETRY_LIMIT ->
  match buy_body RETRY_LIMIT SKIP_SLIPPAGE_CHECK trade io st with
  | Continue st' | Break st' => retry st' <= RETRY_LIMIT
  end.
Proof.
  unfold loop_cond. intros Hcond Hlim. apply andb_true_iff in Hcond as [_ Hretry].
  apply Z.ltb_lt in Hretry. unfold buy_body.
  destruct (buy_prepare SKIP_SLIPPAGE_CHECK trade (book io) st); cbn; [lia |].
  unfold buy_submit.
  destruct (result io) as [resp | errMsg].
  - destruct (success_is_true resp); cbn; [lia |].
    destruct (isInsufficientBalanceOrAllowanceError _); cbn; [lia |].
    destruct (msg_includes _ "lower than the minimum: 5"); cbn; [lia |].
    destruct (msg_includes _ "decimal" || msg_includes _ "accuracy"); cbn; [lia |].
    destruct (isRateLimitError _); [| destruct (isNetworkError _)]; cbn; lia.
  - destruct (is_client_network_error errMsg); cbn; lia.
Qed.

Lemma marks_mark_bot (RETRY_LIMIT : Z) : marks_processed RETRY_LIMIT mark_bot.
Proof. eexists. repeat split. left. reflexivity. Qed.

Lemma marks_finish (RETRY_LIMIT : Z) (st : LoopState) (evs : list Event)
    (plain : Event) (counted : Z -> Event) :
  retry st <= RETRY_LIMIT ->
  marks_processed RETRY_LIMIT plain ->
  (forall n, n = RETRY_LIMIT -> marks_processed RETRY_LIMIT (counted n)) ->
  exists ev,
    last (if abortDueToFunds st then evs ++ [counted RETRY_LIMIT]
          else if RETRY_LIMIT <=? retry st then evs ++ [counted (retry st)]
          else evs ++ [plain]) = Some ev
    /\ marks_processed RETRY_LIMIT ev.
Proof.
  intros Hretry Hplain Hcounted.
  destruct (abortDueToFunds st); [| destruct (RETRY_LIMIT <=? retry st) eqn:Hlim];
    rewrite last_snoc; eexists; (split; [reflexivity |]); auto.
  apply Hcounted. apply Z.leb_le in Hlim. lia.
Qed.

(** X2. With a retry limit that is not negative, every run of [postOrder]
    on the condition merge, buy or sell that returns ends with an update of
    the trade itself that sets [bot] to true, and that update leaves
    [botExcutedTime] alone or sets it to the retry limit; on any other
    condition nothing is written and no order is submitted. *)
Theorem postOrder_marks_trade (RETRY_LIMIT : Z) (SKIP_SLIPPAGE_CHECK : bool)
    (getTradeMultiplier : float -> float) (fuel : nat) (condition : string)
    (my_position user_position : option Position) (trade : Trade)
    (previousBuys : list float) (preScaledAmount : option float)
    (orderCalc : OrderCalc) (bidEnv : nat -> BidAnswer) (askEnv : nat -> Answer)
    (t : list Event) :
  0 <= RETRY_LIMIT ->
  postOrder RETRY_LIMIT SKIP_SLIPPAGE_CHECK getTradeMultiplier fuel condition
    my_position user_position trade previousBuys preScaledAmount orderCalc
    bidEnv askEnv = Some t ->
  if String.eqb condition "merge" || String.eqb condition "buy"
     || String.eqb condition "sell"
  then exists ev, last t = Some ev /\ marks_processed RETRY_LIMIT ev
  else t = [].
Proof.
  intros Hlim. unfold postOrder.
  assert (Hinit : forall r, retry (initial r) <= RETRY_LIMIT) by (intros r; exact Hlim).
  assert (Hearly : exists ev, last [mark_bot] = Some ev
                              /\ marks_processed RETRY_LIMIT ev).
  { eexists. split; [reflexivity | apply marks_mark_bot]. }
  destruct (String.eqb condition "merge"); cbn [orb].
  { unfold postOrder_merge. destruct my_position as [pos|]; [| intros [= <-]; exact Hearly].
    destruct (JS.lt _ MIN_ORDER_SIZE_TOKENS); [intros [= <-]; exact Hearly |].
    destruct (merge_loop _ _ _ _ _ _) as [st'|] eqn:Hrun; [| discriminate].
    intros [= <-]. unfold merge_finish.
    apply (marks_finish RETRY_LIMIT st' (trace st') mark_bot mark_bot_retries).
    - revert Hrun. unfold merge_loop. apply (run_invariant _ _ (fun st => retry st <= RETRY_LIMIT)); [| apply Hinit].
      intros io st Hcond _. apply merge_body_retry; assumption.
    - apply marks_mark_bot.
    - intros n ->. eexists. repeat split. right. reflexivity. }
  destruct (String.eqb condition "buy"); cbn [orb].
  { unfold postOrder_buy.
    assert (Hloop : forall r,
               option_map (buy_finish RETRY_LIMIT)
                 (buy_loop RETRY_LIMIT SKIP_SLIPPAGE_CHECK trade fuel askEnv 0
                    (initial r)) = Some t ->
               exists ev, last t = Some ev /\ marks_processed RETRY_LIMIT ev).
    { intros r. destruct (buy_loop _ _ _ _ _ _ _) as [st'|] eqn:Hrun; [| discriminate].
      intros [= <-]. unfold buy_finish.
      apply (marks_finish RETRY_LIMIT st' (trace st') (mark_bot_bought (total st'))
               (fun n => mark_bot_retries_bought n (total st'))).
      - revert Hrun. unfold buy_loop. apply (run_invariant _ _ (fun st => retry st <= RETRY_LIMIT)); [| apply Hinit].
        intros io st Hcond _. apply buy_body_retry; assumption.
      - eexists. repeat split. left. reflexivity.
      - intros n ->. eexists. repeat split. right. reflexivity. }
    destruct preScaledAmount as [amount|]; [apply Hloop |].
    destruct (belowMinimum orderCalc); [intros [= <-]; exact Hearly | apply Hloop]. }
  destruct (String.eqb condition "sell"); cbn [orb]; [| intros [= <-]; reflexivity].
  unfold postOrder_sell. destruct my_position as [pos|]; [| intros [= <-]; exact Hearly].
  destruct (sell_target _ _ _ _ _) as [r|]; [| intros [= <-]; exact Hearly].
  destruct (sell_loop _ _ _ _ _ _) as [st'|] eqn:Hrun; [| discriminate].
  intros [= <-]. unfold sell_finish.
  apply (marks_finish RETRY_LIMIT st' (trace st' ++ sell_tracking previousBuys (total st'))
           mark_bot mark_bot_retries).
  - revert Hrun. unfold sell_loop. apply (run_invariant _ _ (fun st => retry st <= RETRY_LIMIT)); [| apply Hinit].
    intros io st Hcond _. apply sell_body_retry; assumption.
  - apply marks_mark_bot.
  - intros n ->. eexists. repeat split. right. reflexivity.
Qed.

(** The hypotheses of X2 hold for a buy of 2 USD on an exchange that
    rejects every order, with three retries. *)
Lemma postOrder_marks_trade_witness :
  exists ev, last rejected_buy_run = Some ev /\ marks_processed 3 ev.
Proof.
  exact (postOrder_marks_trade 3 false (fun _ => 1%float) 5 "buy" None None a_trade []
           None two_usd rejecting_bids rejecting_asks rejected_buy_run
           ltac:(lia) ltac:(vm_compute; reflexivity)).
Defined.

(** ** The orders of a run *)


Lemma sell_body_orders (trade : Trade) (io : BidAnswer) (st : LoopState) :
  orders_of (trace (step_state (sell_body trade io st)))
  = orders_of (trace st) ++ option_list (sell_order trade (bids io) st).
Proof.
  unfold sell_body.
  destruct (sell_order trade (bids io) st) as [o|]; cbn [option_list].
  - destruct (success_is_true (resp io));
      [| destruct (isInsufficientBalanceOrAllowanceError _)];
      cbn; apply orders_of_app.
  - cbn. rewrite orders_of_app. reflexivity.
Qed.


Lemma run_orders {IO : Type} (cond : LoopState -> bool)
    (body : IO -> LoopState -> Step LoopState) (good : Order -> Prop) :
  (forall io st o,
      In o (orders_of (trace (step_state (body io st)))) ->
      In o (orders_of (trace st)) \/ good o) ->
  forall (fuel : nat) (env : nat -> IO) (i : nat) (st st' : LoopState),
    Forall good (orders_of (trace st)) ->
    run cond body fuel env i st = Some st' ->
    Forall good (orders_of (trace st')).
Proof.
  intros Hstep.
  apply (run_invariant cond body (fun st => Forall good (orders_of (trace st)))).
  intros io st _ Hst.
  assert (H : Forall good (orders_of (trace (step_state (body io st))))).
  { apply List.Forall_forall. intros o Ho. destruct (Hstep io st o Ho) as [Hold | Hgood].
    - rewrite List.Forall_forall in Hst. apply Hst. exact Hold.
    - exact Hgood. }
  destruct (body io st); exact H.
Qed.

Lemma orders_of_finish (st : LoopState) (evs : list Event) (plain : Event)
    (counted : Z -> Event) (RETRY_LIMIT : Z) :
  orders_of evs = [] -> orders_of [plain] = [] ->
  (forall n, orders_of [counted n] = []) ->
  orders_of (if abortDueToFunds st then (trace st ++ evs) ++ [counted RETRY_LIMIT]
             else if RETRY_LIMIT <=? retry st
                  then (trace st ++ evs) ++ [counted (retry st)]
                  else (trace st ++ evs) ++ [plain])
  = orders_of (trace st).
Proof.
  intros Hevs Hplain Hcounted.
  destruct (abortDueToFunds st); [| destruct (RETRY_LIMIT <=? retry st)];
    rewrite !orders_of_app, Hevs, ?Hplain, ?Hcounted, !app_nil_r; reflexivity.
Qed.

Lemma sell_trace_orders (RETRY_LIMIT : Z)
    (getTradeMultiplier : float -> float) (fuel : nat)
    (my_position user_position : option Position) (trade : Trade)
    (previousBuys : list float) (env : nat -> BidAnswer) (t : list Event) :
  postOrder_sell RETRY_LIMIT getTradeMultiplier fuel my_position user_position trade
    previousBuys env = Some t ->
  Forall (fun o => (o_side o = SELL /\ o_type o = GTC /\ o_market o = true)
                   /\ o_tokenID o = t_asset trade
                   /\ JS.lt (o_quantity o) MIN_ORDER_SIZE_TOKENS = false)
         (orders_of t).
Proof.
  unfold postOrder_sell.
  destruct my_position as [pos|]; [| intros [= <-]; constructor].
  destruct (sell_target _ _ _ _ _) as [r|]; [| intros [= <-]; constructor].
  destruct (sell_loop _ _ _ _ _ _) as [st'|] eqn:Hrun; [| discriminate].
  intros [= <-]. unfold sell_finish. cbv zeta.
  rewrite (orders_of_finish st' (sell_tracking previousBuys (total st')) mark_bot
             mark_bot_retries RETRY_LIMIT (orders_of_sell_tracking _ _) eq_refl
             (fun _ => eq_refl)).
  revert Hrun. unfold sell_loop. apply run_orders; [| constructor].
  intros io st o. rewrite sell_body_orders. intros Ho.
  apply in_app_or in Ho as [Ho | Ho]; [left; exact Ho | right].
  destruct (sell_order trade (bids io) st) as [o'|] eqn:Hsell; [| destruct Ho].
  destruct Ho as [<- | []].
  pose proof (sell_order_above_minimum trade (bids io) st o' Hsell) as Hmin.
  unfold sell_order in Hsell. destruct (bids io); [discriminate |].
  destruct (JS.lt (remaining st) MIN_ORDER_SIZE_TOKENS); [discriminate |].
  destruct (JS.lt (roundTokens _) MIN_ORDER_SIZE_TOKENS); [discriminate |].
  injection Hsell as <-. auto.
Qed.

(** X3. Every order a run of the sell branch submits is for the asset of
    the trade and for a quantity that is not below the minimum of 0.10
    tokens. *)
Theorem sell_orders_respect_minimum (RETRY_LIMIT : Z)
    (getTradeMultiplier : float -> float) (fuel : nat)
    (my_position user_position : option Position) (trade : Trade)
    (previousBuys : list float) (env : nat -> BidAnswer) (t : list Event) :
  postOrder_sell RETRY_LIMIT getTradeMultiplier fuel my_position user_position trade
    previousBuys env = Some t ->
  Forall (fun o => o_tokenID o = t_asset trade
                   /\ JS.lt (o_quantity o) MIN_ORDER_SIZE_TOKENS = false)
         (orders_of t).
Proof.
  intros Hsell. eapply List.Forall_impl; [| apply (sell_trace_orders _ _ _ _ _ _ _ _ _ Hsell)].
  cbn. intros o (_ & Htoken & Hmin). auto.
Qed.

(** The hypothesis of X3 holds for the sale of one token against bids for
    0.1 and then 5 tokens. *)
Lemma sell_orders_respect_minimum_witness :
  Forall (fun o => o_tokenID o = t_asset a_trade
                   /\ JS.lt (o_quantity o) MIN_ORDER_SIZE_TOKENS = false)
         (orders_of sold_one_token_run).
Proof.
  exact (sell_orders_respect_minimum 3 (fun _ => 1%float) 5 (Some one_token) None
           a_trade [] two_fills sold_one_token_run ltac:(vm_compute; reflexivity)).
Defined.



(** ** The retry budget *)











(** ** Messages and prices *)

Lemma includes_unfold (s needle : string) :
  includes s needle
  = String.prefix needle s
    || match s with
       | EmptyString => false
       | String _ r => includes r needle
       end.
Proof. destruct s; reflexivity. Qed.

Lemma append_cons (c : ascii) (s t : string) :
  (String c s ++ t)%string = String c (s ++ t)%string.
Proof. reflexivity. Qed.

Lemma prefix_spec (k s : string) :
  String.prefix k s = true <-> exists post, s = (k ++ post)%string.
Proof.
  revert s. induction k as [|c k IH]; intros s.
  - split; [intros _; exists s; reflexivity | intros _; destruct s; reflexivity].
  - destruct s as [|x s]; simpl.
    + split; [discriminate | intros [post H]; rewrite append_cons in H; discriminate].
    + destruct (Ascii.ascii_dec c x) as [-> | Hne].
      * rewrite IH. split; intros [post H]; exists post; rewrite append_cons in *;
          congruence.
      * split; [discriminate | intros [post H]; rewrite append_cons in H; congruence].
Qed.

(** [includes] is the occurrence of the needle as a substring. *)
Lemma includes_spec (s needle : string) :
  includes s needle = true
  <-> exists pre post, s = (pre ++ needle ++ post)%string.
Proof.
  induction s as [|c s IH]; rewrite includes_unfold, orb_true_iff, prefix_spec.
  - split.
    + intros [[post H] | H]; [exists EmptyString, post; exact H | discriminate].
    + intros (pre & post & H). destruct pre; [left; exists post; exact H | discriminate].
  - rewrite IH. split.
    + intros [[post H] | (pre & post & H)].
      * exists EmptyString, post. exact H.
      * exists (String c pre), post. rewrite append_cons. congruence.
    + intros (pre & post & H). destruct pre as [|x pre].
      * left. exists post. exact H.
      * right. exists pre, post. rewrite append_cons in H. congruence.
Qed.

(** X7. A message is classified as a funds error exactly when its
    lower-case form contains "not enough balance" or "allowance"; so two
    messages with the same lower-case form are classified alike. *)
Theorem funds_error_classification (message : string) :
  (isInsufficientBalanceOrAllowanceError (Some message) = true
   <-> exists pre post,
         toLowerCase message = (pre ++ "not enough balance" ++ post)%string
         \/ toLowerCase message = (pre ++ "allowance" ++ post)%string)
  /\ (forall other,
        toLowerCase other = toLowerCase message ->
        isInsufficientBalanceOrAllowanceError (Some other)
        = isInsufficientBalanceOrAllowanceError (Some message)).
Proof.
  split.
  - unfold isInsufficientBalanceOrAllowanceError.
    destruct message as [|c message].
    + split; [discriminate |].
      intros (pre & post & [H | H]); destruct pre; discriminate.
    + cbn [String.eqb]. rewrite orb_true_iff, !includes_spec. split.
      * intros [(pre & post & H) | (pre & post & H)]; exists pre, post; auto.
      * intros (pre & post & [H | H]); [left | right]; exists pre, post; exact H.
  - intros other Hlower. unfold isInsufficientBalanceOrAllowanceError. rewrite Hlower.
    destruct other, message; try reflexivity; discriminate.
Qed.

(** X8. On the whole-cent prices from 0.00 to 1.00, [roundPrice] returns
    the price itself except at 0.29, 0.57 and 0.58, where it returns the
    cent below. *)
Theorem roundPrice_on_whole_cents (cents : Z) :
  0 <= cents <= 100 ->
  roundPrice (JS.decimal cents 2)
  = JS.decimal (if (cents =? 29) || (cents =? 57) || (cents =? 58)
                then cents - 1 else cents) 2.
Proof.
  intros Hc. apply Leibniz.eqb_spec. revert cents Hc.
  apply Z_range_forallb. vm_compute. reflexivity.
Qed.

Lemma roundPrice_on_whole_cents_witness :
  roundPrice (JS.decimal 29 2) = JS.decimal 28 2.
Proof. apply (roundPrice_on_whole_cents 29). lia. Defined.

(** X9 and X10 are [maker_price_below_ask_on_cents] and
    [whole_cent_price_is_kept] above; their hypotheses hold at 0.50. *)
Lemma maker_price_below_ask_on_cents_witness :
  JS.lt (roundPrice (roundPrice (JS.decimal 50 2)
                     - JS.Math_max 0.01 (roundPrice (JS.decimal 50 2) * 0.02))%float)
        (roundPrice (JS.decimal 50 2)) = true.
Proof. apply (maker_price_below_ask_on_cents 50). lia. Defined.

Lemma whole_cent_price_is_kept_witness :
  priceCents (JS.decimal 50 2) = JS.of_Z 50
  /\ finalPrice (precision true 2 (JS.decimal 50 2)) = JS.decimal 50 2.
Proof. apply (whole_cent_price_is_kept 50 true 2). lia. Defined.

(** ** Insertion-ordered maps *)

Lemma JsMap_get_set_eq {V : Type} (m : list (string * V)) (k : string) (v : V) :
  JsMap.get (JsMap.set m k v) k = Some v.
Proof.
  induction m as [|[k' v'] m IH]; simpl.
  - rewrite String.eqb_refl. reflexivity.
  - destruct (String.eqb k' k) eqn:E; simpl.
    + rewrite String.eqb_refl. reflexivity.
    + rewrite E. exact IH.
Qed.

Lemma JsMap_get_set_ne {V : Type} (m : list (string * V)) (k k' : string) (v : V) :
  k' <> k -> JsMap.get (JsMap.set m k v) k' = JsMap.get m k'.
Proof.
  intros Hne. induction m as [|[k0 v0] m IH]; simpl.
  - apply String.eqb_neq in Hne. rewrite String.eqb_sym, Hne. reflexivity.
  - destruct (String.eqb k0 k) eqn:E; simpl.
    + apply String.eqb_eq in E as ->.
      apply String.eqb_neq in Hne. rewrite String.eqb_sym, Hne. reflexivity.
    + destruct (String.eqb k0 k'); [reflexivity | exact IH].
Qed.

Lemma JsMap_get_In {V : Type} (m : list (string * V)) (k : string) (v : V) :
  JsMap.get m k = Some v -> In (k, v) m.
Proof.
  induction m as [|[k' v'] m IH]; simpl; [discriminate |].
  destruct (String.eqb k' k) eqn:E.
  - apply String.eqb_eq in E as ->. intros [= ->]. left. reflexivity.
  - intros H. right. apply IH. exact H.
Qed.

Lemma JsMap_get_None {V : Type} (m : list (string * V)) (k : string) :
  JsMap.get m k = None <-> ~ In k (JsMap.keys m).
Proof.
  unfold JsMap.keys. induction m as [|[k' v'] m IH]; simpl; [tauto |].
  destruct (String.eqb k' k) eqn:E.
  - apply String.eqb_eq in E. split; [discriminate | tauto].
  - apply String.eqb_neq in E. rewrite IH. tauto.
Qed.

(** [set] keeps the keys in place and appends a new one. *)
Lemma JsMap_keys_set {V : Type} (m : list (string * V)) (k : string) (v : V) :
  JsMap.keys (JsMap.set m k v)
  = match JsMap.get m k with
    | Some _ => JsMap.keys m
    | None => JsMap.keys m ++ [k]
    end.
Proof.
  unfold JsMap.keys. induction m as [|[k' v'] m IH]; simpl; [reflexivity |].
  destruct (String.eqb k' k) eqn:E; simpl.
  - apply String.eqb_eq in E as ->. reflexivity.
  - rewrite IH. destruct (JsMap.get m k); reflexivity.
Qed.

Lemma JsMap_NoDup_set {V : Type} (m : list (string * V)) (k : string) (v : V) :
  List.NoDup (JsMap.keys m) -> List.NoDup (JsMap.keys (JsMap.set m k v)).
Proof.
  intros Hnodup. rewrite JsMap_keys_set.
  destruct (JsMap.get m k) eqn:Hget; [exact Hnodup |].
  apply JsMap_get_None in Hget.
  apply NoDup_rev in Hnodup. rewrite <- (rev_involutive (_ ++ [k])).
  apply NoDup_rev. rewrite rev_app_distr. simpl. constructor; [| exact Hnodup].
  rewrite <- in_rev. exact Hget.
Qed.


Lemma JsMap_In_get {V : Type} (m : list (string * V)) (k : string) (v : V) :
  List.NoDup (JsMap.keys m) -> In (k, v) m -> JsMap.get m k = Some v.
Proof.
  unfold JsMap.keys. induction m as [|[k' v'] m IH]; simpl; intros Hnodup Hin;
    [destruct Hin |].
  apply NoDup_cons_iff in Hnodup as [Hfresh Hnodup].
  destruct Hin as [[= -> ->] | Hin].
  - rewrite String.eqb_refl. reflexivity.
  - assert (Hne : String.eqb k' k = false).
    { apply String.eqb_neq. intros ->. apply Hfresh.
      change k with (fst (k, v)). apply in_map. exact Hin. }
    rewrite Hne. apply IH; assumption.
Qed.

Lemma JsMap_Forall_set {V : Type} (P : string * V -> Prop) (m : list (string * V))
    (k : string) (v : V) :
  Forall P m -> P (k, v) -> Forall P (JsMap.set m k v).
Proof.
  intros Hm Hv. induction Hm as [|[k' v'] m Hhead Hm IH]; simpl.
  - constructor; [exact Hv | constructor].
  - destruct (String.eqb k' k); constructor; assumption.
Qed.

(** ** Recorded executions *)

Lemma getMarketTracker_assets (marketTrackers : Trackers) (conditionId : string)
    (slug : option string) :
  mt_assets (snd (getMarketTracker marketTrackers conditionId slug))
  = match marketTrackers !! conditionId with
    | Some tracker => mt_assets tracker
    | None => []
    end.
Proof.
  destruct (getMarketTracker_spec marketTrackers conditionId slug) as (_ & _ & H).
  destruct (marketTrackers !! conditionId).
  - destruct H as [H _]. exact H.
  - rewrite H. reflexivity.
Qed.

Lemma recordExecution_unfold (marketTrackers : Trackers) (conditionId asset : string)
    (quantity cost : float) (slug : option string) :
  let got := getMarketTracker marketTrackers conditionId slug in
  recordExecution marketTrackers conditionId asset quantity cost slug
  = <[conditionId :=
        {| mt_conditionId := mt_conditionId (snd got);
           mt_slug := mt_slug (snd got);
           mt_assets := JsMap.set (mt_assets (snd got)) asset
                          (sideAfter (JsMap.get (mt_assets (snd got)) asset)
                                     asset quantity cost) |}]> (fst got).
Proof.
  unfold recordExecution.
  destruct (getMarketTracker marketTrackers conditionId slug) as [m t]. cbn [fst snd].
  destruct (JsMap.get (mt_assets t) asset); reflexivity.
Qed.

Lemma recordedSide_recordExecution_eq (marketTrackers : Trackers)
    (conditionId asset : string) (quantity cost : float) (slug : option string) :
  recordedSide (recordExecution marketTrackers conditionId asset quantity cost slug)
    conditionId asset
  = Some (sideAfter (recordedSide marketTrackers conditionId asset)
                    asset quantity cost).
Proof.
  rewrite recordExecution_unfold. cbv zeta. unfold recordedSide, Trackers in *.
  rewrite lookup_insert_eq. cbn [mt_assets].
  rewrite JsMap_get_set_eq, getMarketTracker_assets.
  unfold Trackers in *. destruct (marketTrackers !! conditionId); reflexivity.
Qed.

Lemma recordedSide_recordExecution_ne (marketTrackers : Trackers)
    (conditionId asset : string) (quantity cost : float) (slug : option string)
    (conditionId' asset' : string) :
  conditionId' <> conditionId \/ asset' <> asset ->
  recordedSide (recordExecution marketTrackers conditionId asset quantity cost slug)
    conditionId' asset'
  = recordedSide marketTrackers conditionId' asset'.
Proof.
  intros Hne. rewrite recordExecution_unfold. cbv zeta.
  destruct (getMarketTracker_spec marketTrackers conditionId slug) as (_ & Hothers & _).
  unfold recordedSide, Trackers in *.
  destruct (decide (conditionId' = conditionId)) as [-> | Hc].
  - destruct Hne as [Hne | Hne]; [contradiction |].
    rewrite lookup_insert_eq. cbn [mt_assets].
    rewrite JsMap_get_set_ne by exact Hne. rewrite getMarketTracker_assets.
    unfold Trackers in *. destruct (marketTrackers !! conditionId); reflexivity.
  - rewrite lookup_insert_ne by congruence. rewrite (Hothers _ Hc). reflexivity.
Qed.

Lemma recordedSide_checkArb (marketTrackers : Trackers) (conditionId thisAsset : string)
    (newQuantity newAvgPrice : float) (slug : option string)
    (conditionId' asset' : string) :
  recordedSide (fst (checkArbBeforeExecution marketTrackers conditionId thisAsset
                       newQuantity newAvgPrice slug)) conditionId' asset'
  = recordedSide marketTrackers conditionId' asset'.
Proof.
  rewrite checkArb_unfold. cbn [fst].
  destruct (getMarketTracker_spec marketTrackers conditionId slug)
    as (Hhere & Hothers & Hkept).
  unfold recordedSide, Trackers in *.
  destruct (decide (conditionId' = conditionId)) as [-> | Hc].
  - unfold Trackers in *. rewrite Hhere. destruct (marketTrackers !! conditionId).
    + destruct Hkept as [-> _]. reflexivity.
    + rewrite Hkept. reflexivity.
  - rewrite (Hothers _ Hc). reflexivity.
Qed.

(** X11. After [recordExecution] the side of the asset holds the
    execution added to what was recorded before (quantity and total cost
    summed, the average price their quotient), or the execution alone when
    nothing was recorded; the sides of every other asset and market are as
    before, and the sides of the market keep their order, a new one going
    last. *)
Theorem recordExecution_lookup (marketTrackers : Trackers)
    (conditionId asset : string) (quantity cost : float) (slug : option string) :
  let after := recordExecution marketTrackers conditionId asset quantity cost slug in
  recordedSide after conditionId asset
  = Some (sideAfter (recordedSide marketTrackers conditionId asset) asset quantity cost)
  /\ (forall conditionId' asset',
        conditionId' <> conditionId \/ asset' <> asset ->
        recordedSide after conditionId' asset'
        = recordedSide marketTrackers conditionId' asset')
  /\ (forall tracker',
        after !! conditionId = Some tracker' ->
        JsMap.keys (mt_assets tracker')
        = let before := match marketTrackers !! conditionId with
                        | Some tracker => mt_assets tracker
                        | None => []
                        end in
          match JsMap.get before asset with
          | Some _ => JsMap.keys before
          | None => JsMap.keys before ++ [asset]
          end).
Proof.
  intros after. split; [apply recordedSide_recordExecution_eq |].
  split; [intros c' a'; apply recordedSide_recordExecution_ne |].
  intros tracker'. subst after. rewrite recordExecution_unfold. cbv zeta.
  unfold Trackers in *.
  rewrite lookup_insert_eq. intros [= <-]. cbn [mt_assets].
  rewrite JsMap_keys_set, getMarketTracker_assets. reflexivity.
Qed.




(** X13. What a round of [doAggregatedTrading] leaves in the trackers:
    when the check allows the aggregation and [postOrder] returns, the side
    of its asset holds the derived token total and the scaled USD total
    added to what was recorded before; every other side, and every side when
    the check rejects or [postOrder] raises, is as before. *)
Theorem aggregation_outcome_in_trackers (marketTrackers : Trackers)
    (agg : AggregatedTrade) (threw : bool) (conditionId asset : string) :
  let arbCheck :=
    snd (checkArbBeforeExecution marketTrackers (agg_conditionId agg) (agg_asset agg)
           (totalTokens agg) (averagePrice agg) (agg_slug agg)) in
  recordedSide (processAggregation marketTrackers agg threw) conditionId asset
  = if ok arbCheck && negb threw
       && String.eqb conditionId (agg_conditionId agg)
       && String.eqb asset (agg_asset agg)
    then Some (sideAfter (recordedSide marketTrackers conditionId asset) asset
                         (totalTokens agg) (totalScaledUsdcSize agg))
    else recordedSide marketTrackers conditionId asset.
Proof.
  intros arbCheck. subst arbCheck. unfold processAggregation.
  pose proof (recordedSide_checkArb marketTrackers (agg_conditionId agg) (agg_asset agg)
                (totalTokens agg) (averagePrice agg) (agg_slug agg)) as Hcheck.
  destruct (checkArbBeforeExecution marketTrackers (agg_conditionId agg)
              (agg_asset agg) (totalTokens agg) (averagePrice agg) (agg_slug agg))
    as [checked arbCheck]. cbn [fst snd] in *.
  destruct (ok arbCheck); cbn [negb andb]; [| apply Hcheck].
  destruct threw; cbn [negb andb]; [apply Hcheck |].
  destruct (String.eqb conditionId (agg_conditionId agg)) eqn:Hc; cbn [andb].
  - apply String.eqb_eq in Hc as ->.
    destruct (String.eqb asset (agg_asset agg)) eqn:Ha.
    + apply String.eqb_eq in Ha as ->.
      rewrite recordedSide_recordExecution_eq, Hcheck. reflexivity.
    + apply String.eqb_neq in Ha.
      rewrite recordedSide_recordExecution_ne by (right; exact Ha). apply Hcheck.
  - apply String.eqb_neq in Hc.
    rewrite recordedSide_recordExecution_ne by (left; exact Hc). apply Hcheck.
Qed.

Lemma otherAssetOf_Some (assets : list (string * AssetExecution)) (thisAsset : string)
    (other : AssetExecution) :
  otherAssetOf assets thisAsset = Some other ->
  exists asset, asset <> thisAsset /\ JsMap.get assets asset = Some other.
Proof.
  induction assets as [|[k d] assets IH]; simpl; [discriminate |].
  destruct (String.eqb k thisAsset) eqn:E; simpl.
  - apply String.eqb_eq in E as ->. intros H. destruct (IH H) as (a & Ha & Hget).
    exists a. split; [exact Ha |].
    apply String.eqb_neq in Ha. rewrite String.eqb_sym, Ha. exact Hget.
  - apply String.eqb_neq in E. intros [= <-]. exists k. split; [exact E |].
    rewrite String.eqb_refl. reflexivity.
Qed.

(** X14. A trade on a market for which no side of another asset is
    recorded is allowed as a first side, with cost basis and imbalance
    reported as zero, whatever its quantity and price. *)
Theorem one_sided_market_is_never_gated (marketTrackers : Trackers)
    (conditionId thisAsset : string) (newQuantity newAvgPrice : float)
    (slug : option string) :
  (forall asset, recordedSide marketTrackers conditionId asset <> None ->
                 asset = thisAsset) ->
  snd (checkArbBeforeExecution marketTrackers conditionId thisAsset
         newQuantity newAvgPrice slug)
  = {| ok := true; reason := FirstSide; costBasis := 0; imbalance := 0 |}.
Proof.
  intros Honly. rewrite checkArb_unfold. cbn [snd]. unfold otherSide.
  rewrite getMarketTracker_assets.
  destruct (otherAssetOf _ thisAsset) as [other|] eqn:Hother; [| reflexivity].
  exfalso. apply otherAssetOf_Some in Hother as (asset & Hne & Hget).
  apply Hne, Honly. unfold recordedSide.
  destruct (marketTrackers !! conditionId); [rewrite Hget |]; discriminate.
Qed.

(** The hypothesis of X14 holds for more of side B on the market that has
    only side B. *)
Lemma one_sided_market_is_never_gated_witness :
  snd (checkArbBeforeExecution one_sided_market "cond-1" "B" 4 0.3 None)
  = {| ok := true; reason := FirstSide; costBasis := 0; imbalance := 0 |}.
Proof.
  apply one_sided_market_is_never_gated. intros asset Hside.
  destruct (decide (asset = "B"%string)) as [-> | Hne]; [reflexivity |].
  exfalso. apply Hside. unfold one_sided_market.
  rewrite recordedSide_recordExecution_ne by (right; exact Hne). reflexivity.
Defined.

(** ** The aggregation buffer, continued *)

Lemma rawTotal_snoc (first : TradeWithUser) (rest : list TradeWithUser)
    (trade : TradeWithUser) :
  rawTotal ((first :: rest) ++ [trade])
  = (rawTotal (first :: rest) + tw_usdcSize trade)%float.
Proof. cbn [app rawTotal]. rewrite fold_left_app. reflexivity. Qed.

Lemma scaledTotal_snoc (first : TradeWithUser) (rest : list TradeWithUser)
    (trade : TradeWithUser) :
  scaledTotal ((first :: rest) ++ [trade])
  = (scaledTotal (first :: rest) + scaledSizeOf trade)%float.
Proof. cbn [app scaledTotal]. rewrite fold_left_app. reflexivity. Qed.

Lemma weightedAverage_snoc (first : TradeWithUser) (rest : list TradeWithUser)
    (trade : TradeWithUser) :
  weightedAverage ((first :: rest) ++ [trade])
  = (fold_left (fun sum t => (sum + tw_usdcSize t * tw_price t)%float)
       ((first :: rest) ++ [trade]) 0%float
     / rawTotal ((first :: rest) ++ [trade]))%float.
Proof. destruct rest; reflexivity. Qed.

Lemma addToAggregationBuffer_unfold (buffer : Buffer) (trade : TradeWithUser) (now : Z) :
  exists agg,
    addToAggregationBuffer buffer trade now
    = JsMap.set buffer (getAggregationKey trade) agg
    /\ agg_trades agg
       = match JsMap.get buffer (getAggregationKey trade) with
         | Some existing => agg_trades existing ++ [trade]
         | None => [trade]
         end
    /\ (forall existing,
          JsMap.get buffer (getAggregationKey trade) = Some existing ->
          accumulator_consistent (getAggregationKey trade) existing ->
          accumulator_consistent (getAggregationKey trade) agg)
    /\ (JsMap.get buffer (getAggregationKey trade) = None ->
        accumulator_consistent (getAggregationKey trade) agg
        /\ firstTradeTime agg = now).
Proof.
  unfold addToAggregationBuffer. cbv zeta.
  destruct (JsMap.get buffer (getAggregationKey trade)) as [existing|] eqn:Hget.
  - eexists. split; [reflexivity |]. cbn [agg_trades]. split; [reflexivity |].
    split; [| discriminate].
    intros ? [= <-] (Hkeys & (first & rest & Htrades & Huser & Hcond & Hasset)
                     & Hraw & Hscaled & Havg).
    unfold accumulator_consistent.
    cbn [agg_trades agg_userAddress agg_conditionId agg_asset totalRawUsdcSize
         totalScaledUsdcSize averagePrice].
    rewrite Htrades in *. split; [| split; [| split; [| split]]].
    + apply Forall_app. split; [exact Hkeys | constructor; [reflexivity | constructor]].
    + exists first, (rest ++ [trade]). auto.
    + rewrite Hraw. symmetry. apply rawTotal_snoc.
    + rewrite Hscaled. symmetry. apply scaledTotal_snoc.
    + rewrite Hraw, weightedAverage_snoc, rawTotal_snoc. reflexivity.
  - eexists. split; [reflexivity |]. cbn [agg_trades]. split; [reflexivity |].
    split; [discriminate |]. intros _. split; [| reflexivity].
    unfold accumulator_consistent.
    cbn [agg_trades agg_userAddress agg_conditionId agg_asset totalRawUsdcSize
         totalScaledUsdcSize averagePrice].
    split; [constructor; [reflexivity | constructor] |].
    split; [exists trade, []; auto |]. auto.
Qed.

Lemma reachable_consistent (buffer : Buffer) :
  reachable buffer ->
  List.NoDup (JsMap.keys buffer)
  /\ forall key agg, JsMap.get buffer key = Some agg -> accumulator_consistent key agg.
Proof.
  induction 1 as [|buffer trade now _ [Hnodup Hcons]|buffer _ [Hnodup Hcons]].
  - split; [constructor | discriminate].
  - destruct (addToAggregationBuffer_unfold buffer trade now)
      as (agg' & -> & _ & Hold & Hnew).
    split; [apply JsMap_NoDup_set; exact Hnodup |].
    intros key agg. destruct (decide (key = getAggregationKey trade)) as [-> | Hne].
    + rewrite JsMap_get_set_eq. intros [= <-].
      destruct (JsMap.get buffer (getAggregationKey trade)) as [existing|] eqn:Hget.
      * apply (Hold existing eq_refl). apply Hcons. exact Hget.
      * apply Hnew. reflexivity.
    + rewrite JsMap_get_set_ne by exact Hne. apply Hcons.
  - rewrite (getReadyAggregations_filter buffer Hnodup). cbn [snd].
    split; [apply NoDup_keys_filter; exact Hnodup |].
    intros key agg Hget. apply Hcons. apply JsMap_In_get; [exact Hnodup |].
    apply JsMap_get_In in Hget. apply filter_In in Hget as [Hin _]. exact Hin.
Qed.

(** X15. Aggregation conservation.  In every buffer the executor can
    reach the keys are distinct, and every accumulator, in the buffer or
    released from it, holds at least one trade, only trades of its own key,
    the identity of its first trade, and as totals the sums over its trades
    in arrival order: the raw USD sizes, the scaled USD sizes, and as
    average price the price of a single trade or else the mean of the prices
    weighted by the raw sizes.  The released accumulators are ready ones of
    the buffer. *)
Theorem reachable_buffers_are_consistent (buffer : Buffer) :
  reachable buffer ->
  List.NoDup (JsMap.keys buffer)
  /\ (forall key agg,
        JsMap.get buffer key = Some agg -> accumulator_consistent key agg)
  /\ (forall agg,
        In agg (fst (getReadyAggregations buffer)) ->
        isReady agg = true
        /\ exists key, JsMap.get buffer key = Some agg
                       /\ accumulator_consistent key agg).
Proof.
  intros Hreach. destruct (reachable_consistent buffer Hreach) as [Hnodup Hcons].
  split; [exact Hnodup |]. split; [exact Hcons |].
  rewrite (getReadyAggregations_filter buffer Hnodup). cbn [fst].
  intros agg Hin. apply in_map_iff in Hin as ([key agg'] & <- & Hin).
  apply filter_In in Hin as [Hin Hready]. cbn [snd] in *.
  split; [exact Hready |]. exists key.
  pose proof (JsMap_In_get buffer key agg' Hnodup Hin) as Hget. auto.
Qed.

(** The hypothesis of X15 holds of the buffer with two accumulators. *)
Lemma reachable_buffers_are_consistent_witness :
  List.NoDup (JsMap.keys two_accumulators)
  /\ (forall key agg,
        JsMap.get two_accumulators key = Some agg -> accumulator_consistent key agg)
  /\ (forall agg,
        In agg (fst (getReadyAggregations two_accumulators)) ->
        isReady agg = true
        /\ exists key, JsMap.get two_accumulators key = Some agg
                       /\ accumulator_consistent key agg).
Proof.
  apply reachable_buffers_are_consistent.
  unfold two_accumulators. repeat apply reach_add. apply reach_empty.
Defined.

(** X16. Once a ready accumulator has been released its key is gone from
    the buffer, and the next trade of that key starts a new accumulator that
    holds this trade alone. *)
Theorem released_key_starts_afresh (buffer : Buffer) (trade : TradeWithUser) (now : Z) :
  reachable buffer ->
  option_map isReady (JsMap.get buffer (getAggregationKey trade)) = Some true ->
  let kept := snd (getReadyAggregations buffer) in
  JsMap.get kept (getAggregationKey trade) = None
  /\ exists fresh,
       JsMap.get (addToAggregationBuffer kept trade now) (getAggregationKey trade)
       = Some fresh
       /\ agg_trades fresh = [trade]
       /\ totalRawUsdcSize fresh = tw_usdcSize trade
       /\ totalScaledUsdcSize fresh = scaledSizeOf trade
       /\ averagePrice fresh = tw_price trade
       /\ firstTradeTime fresh = now.
Proof.
  intros Hreach Hready kept.
  destruct (JsMap.get buffer (getAggregationKey trade)) as [agg|] eqn:Hget;
    [| discriminate].
  injection Hready as Hready.
  destruct (reachable_consistent buffer Hreach) as [Hnodup _].
  assert (Hgone : JsMap.get kept (getAggregationKey trade) = None).
  { subst kept. rewrite (getReadyAggregations_filter buffer Hnodup). cbn [snd].
    rewrite (get_filter_present _ buffer _ agg Hnodup (JsMap_get_In _ _ _ Hget)).
    cbn [snd]. rewrite Hready. reflexivity. }
  split; [exact Hgone |].
  unfold addToAggregationBuffer. cbv zeta. rewrite Hgone.
  eexists. split; [apply JsMap_get_set_eq |]. cbn. repeat split.
Qed.

(** The hypotheses of X16 hold for a fourth buy in the first market of the
    buffer with two accumulators, whose first accumulator is ready. *)
Lemma released_key_starts_afresh_witness :
  JsMap.get (snd (getReadyAggregations two_accumulators)) (getAggregationKey next_buy)
  = None
  /\ exists fresh,
       JsMap.get (addToAggregationBuffer (snd (getReadyAggregations two_accumulators))
                    next_buy 2000) (getAggregationKey next_buy)
       = Some fresh
       /\ agg_trades fresh = [next_buy]
       /\ totalRawUsdcSize fresh = tw_usdcSize next_buy
       /\ totalScaledUsdcSize fresh = scaledSizeOf next_buy
       /\ averagePrice fresh = tw_price next_buy
       /\ firstTradeTime fresh = 2000.
Proof.
  apply released_key_starts_afresh.
  - unfold two_accumulators. repeat apply reach_add. apply reach_empty.
  - vm_compute. reflexivity.
Defined.

Lemma ready_has_positive_price (agg : AggregatedTrade) :
  isReady agg = true ->
  JS.gt (averagePrice agg) 0 = true
  /\ JS.ge (totalScaledUsdcSize agg / averagePrice agg)%float MIN_TOKENS_FOR_ORDER = true.
Proof.
  unfold isReady, totalTokens.
  destruct (JS.gt (averagePrice agg) 0); [auto | discriminate].
Qed.

(** X20. Only accumulators with a positive average price are released,
    and of those only the ones whose scaled total divided by the average
    price is at least 5 tokens; an accumulator whose average price is zero,
    negative or not a number is never released: it stays in the buffer. *)
Theorem only_priced_accumulators_are_released (buffer : Buffer) :
  reachable buffer ->
  Forall (fun ready =>
            JS.gt (averagePrice ready) 0 = true
            /\ JS.ge (totalScaledUsdcSize ready / averagePrice ready)%float
                     MIN_TOKENS_FOR_ORDER = true)
         (fst (getReadyAggregations buffer))
  /\ (forall key agg,
        JsMap.get buffer key = Some agg ->
        JS.gt (averagePrice agg) 0 = false ->
        JsMap.get (snd (getReadyAggregations buffer)) key = Some agg).
Proof.
  intros Hreach. destruct (reachable_consistent buffer Hreach) as [Hnodup _].
  rewrite (getReadyAggregations_filter buffer Hnodup). cbn [fst snd]. split.
  - apply List.Forall_forall. intros ready Hin.
    apply in_map_iff in Hin as (entry & <- & Hin). apply filter_In in Hin as [_ Hready].
    apply ready_has_positive_price. exact Hready.
  - intros key agg Hget Hprice.
    rewrite (get_filter_present _ buffer key agg Hnodup (JsMap_get_In _ _ _ Hget)).
    cbn [snd]. unfold isReady, totalTokens. rewrite Hprice. reflexivity.
Qed.

(** The hypothesis of X20 holds of a buffer that holds one buy at the price
    zero. *)
Lemma only_priced_accumulators_are_released_witness :
  Forall (fun ready =>
            JS.gt (averagePrice ready) 0 = true
            /\ JS.ge (totalScaledUsdcSize ready / averagePrice ready)%float
                     MIN_TOKENS_FOR_ORDER = true)
         (fst (getReadyAggregations unpriced_buffer))
  /\ (forall key agg,
        JsMap.get unpriced_buffer key = Some agg ->
        JS.gt (averagePrice agg) 0 = false ->
        JsMap.get (snd (getReadyAggregations unpriced_buffer)) key = Some agg).
Proof.
  apply only_priced_accumulators_are_released.
  unfold unpriced_buffer. apply reach_add. apply reach_empty.
Defined.

(** ** The market filter and the intake *)

Lemma lower_ascii_idem (c : ascii) : lower_ascii (lower_ascii c) = lower_ascii c.
Proof. destruct c as [[] [] [] [] [] [] [] []]; reflexivity. Qed.

Lemma toLowerCase_idem (s : string) : toLowerCase (toLowerCase s) = toLowerCase s.
Proof.
  induction s as [|c s IH]; simpl; [reflexivity |].
  rewrite lower_ascii_idem, IH. reflexivity.
Qed.

Lemma prefix_before_space (k a b : string) :
  no_space k = true ->
  String.prefix k (a ++ String " " b) = String.prefix k a.
Proof.
  revert k. induction a as [|x a IH]; intros k Hk.
  - destruct k as [|c k]; [reflexivity |]. simpl in *.
    apply andb_true_iff in Hk as [Hc _]. apply negb_true_iff in Hc.
    destruct (Ascii.ascii_dec c " ") as [-> | _]; [| reflexivity].
    rewrite Ascii.eqb_refl in Hc. discriminate.
  - destruct k as [|c k]; [reflexivity |]. simpl in *.
    apply andb_true_iff in Hk as [_ Hk].
    destruct (Ascii.ascii_dec c x); [apply IH; exact Hk | reflexivity].
Qed.

(** A keyword without a space occurs in two strings joined by a space
    exactly when it occurs in one of them. *)
Lemma includes_joined (k a b : string) :
  no_space k = true ->
  includes (a ++ String " " b) k = includes a k || includes b k.
Proof.
  intros Hk. induction a as [|x a IH].
  - change (includes (EmptyString ++ String " " b) k)
      with (String.prefix k (EmptyString ++ String " " b) || includes b k).
    rewrite prefix_before_space by exact Hk.
    cbn [includes]. rewrite orb_false_r. reflexivity.
  - change (includes (String x a ++ String " " b) k)
      with (String.prefix k (String x a ++ String " " b)
            || includes (a ++ String " " b) k).
    rewrite prefix_before_space by exact Hk. rewrite IH.
    cbn [includes]. rewrite orb_assoc. reflexivity.
Qed.

(** X17. A trade is in an allowed market exactly when the lower-case
    forms of its slug and event slug (a missing one counting as empty)
    mention "15m" and one of "btc" and "eth", each keyword in either of the
    two; the case of the slugs does not matter. *)
Theorem isAllowedMarket_spec (slug eventSlug : option string) :
  let mentions keyword :=
    includes (lowered slug) keyword || includes (lowered eventSlug) keyword in
  isAllowedMarket slug eventSlug
  = mentions "15m"%string && (mentions "btc"%string || mentions "eth"%string)
  /\ isAllowedMarket (option_map toLowerCase slug) (option_map toLowerCase eventSlug)
     = isAllowedMarket slug eventSlug.
Proof.
  intros mentions. subst mentions. split.
  - unfold isAllowedMarket.
    cbn [ALLOWED_MARKET_KEYWORDS existsb forallb].
    change (toLowerCase "btc") with "btc"%string.
    change (toLowerCase "eth") with "eth"%string.
    change (toLowerCase "15m") with "15m"%string.
    change (lowered slug ++ " " ++ lowered eventSlug)%string
      with (lowered slug ++ String " " (lowered eventSlug))%string.
    rewrite !includes_joined by reflexivity.
    destruct (includes (lowered slug) "15m"), (includes (lowered eventSlug) "15m"),
             (includes (lowered slug) "btc"), (includes (lowered eventSlug) "btc"),
             (includes (lowered slug) "eth"), (includes (lowered eventSlug) "eth");
      reflexivity.
  - unfold isAllowedMarket.
    assert (H : forall s, lowered (option_map toLowerCase s) = lowered s)
      by (intros [s|]; [apply toLowerCase_idem | reflexivity]).
    rewrite !H. reflexivity.
Qed.

(** X18. Only BUY trades of allowed markets enter the buffer: the intake
    of any other trade leaves the buffer as it is, and when every
    accumulator of the buffer has the side BUY, so has every accumulator
    after an intake, and so have the accumulators [getReadyAggregations]
    releases and those it keeps. *)
Theorem only_allowed_buys_are_buffered (buffer : Buffer) :
  Forall (fun entry => agg_side (snd entry) = "BUY"%string) buffer ->
  (forall trade eventSlug finalAmount now,
      Forall (fun entry => agg_side (snd entry) = "BUY"%string)
             (intake buffer trade eventSlug finalAmount now)
      /\ (isAllowedMarket (tw_slug trade) eventSlug && is_BUY (tw_side trade) = false ->
          intake buffer trade eventSlug finalAmount now = buffer))
  /\ Forall (fun agg => agg_side agg = "BUY"%string) (fst (getReadyAggregations buffer))
  /\ Forall (fun entry => agg_side (snd entry) = "BUY"%string)
            (snd (getReadyAggregations buffer)).
Proof.
  intros Hbuys. split; [| split].
  - intros trade eventSlug finalAmount now. unfold intake, route.
    destruct (isAllowedMarket (tw_slug trade) eventSlug); cbn [andb];
      [| split; [exact Hbuys | reflexivity]].
    destruct (is_BUY (tw_side trade)) eqn:Hside;
      [| split; [exact Hbuys | reflexivity]].
    split; [| discriminate].
    unfold is_BUY in Hside. destruct (tw_side trade) as [side|] eqn:Hs; [| discriminate].
    apply String.eqb_eq in Hside as ->.
    unfold addToAggregationBuffer. cbv zeta.
    destruct (JsMap.get buffer _) as [existing|] eqn:Hget.
    + apply JsMap_Forall_set; [exact Hbuys |]. cbn [snd agg_side].
      apply JsMap_get_In in Hget. rewrite List.Forall_forall in Hbuys.
      apply (Hbuys _ Hget).
    + apply JsMap_Forall_set; [exact Hbuys |]. cbn [snd agg_side withScaledUsdcSize tw_side].
      rewrite Hs. reflexivity.
  - unfold getReadyAggregations. rewrite getReady_fold. cbn [fst app].
    apply List.Forall_forall. intros agg Hin.
    apply in_map_iff in Hin as (entry & <- & Hin). apply filter_In in Hin as [Hin _].
    rewrite List.Forall_forall in Hbuys. apply (Hbuys _ Hin).
  - unfold getReadyAggregations. rewrite getReady_fold. cbn [snd].
    apply List.Forall_forall. intros entry Hin. apply filter_In in Hin as [Hin _].
    rewrite List.Forall_forall in Hbuys. apply (Hbuys _ Hin).
Qed.

(** The hypothesis of X18 holds of the buffer with two accumulators. *)
Lemma only_allowed_buys_are_buffered_witness :
  Forall (fun agg => agg_side agg = "BUY"%string)
         (fst (getReadyAggregations two_accumulators)).
Proof.
  apply (only_allowed_buys_are_buffered two_accumulators).
  vm_compute. repeat constructor.
Defined.
